(** * XMODEM sender and receiver of [src/xmodem.ts]

    A shallow embedding of the block encoder ([sendBlock]), the block
    decoder ([receiveBlock]) and the two inbound-data handlers
    ([sendData], [receiveData]) of the [Xmodem] class, with the theorems
    that settle the properties stated about them.

    Conventions.
    - A Node [Buffer] is a [list Z] whose elements are bytes ([bytes]).
    - A JavaScript number that the program only uses as an integer is a [Z];
      [%] is the truncating remainder [Z.rem], the coercion of
      [Buffer.from([x])] is [x mod 256].
    - A handler is a function from its closure variables (a record) and the
      inbound chunk to the trace of effects it performs, in order, and the
      new closure variables; an uncaught exception ends the trace. *)

From Stdlib Require Import ZArith Lia Ascii String HexString.
From stdpp Require Import base tactics option list.

Local Open Scope Z_scope.

(** ** JavaScript and Node primitives used by the program *)

Module Js.

(** A byte as a [Buffer] stores it. *)
Definition is_byte (b : Z) : Prop := 0 <= b < 256.

Definition bytes (buf : list Z) : Prop := Forall is_byte buf.

(** [Buffer.from([x])]: the element is coerced to an unsigned 8-bit
    integer. *)
Definition to_uint8 (x : Z) : Z := x mod 256.

(** [n.toString(16)] for an integer [n]. *)
Definition toString16 (n : Z) : string :=
  match n with
  | Z0 => "0"
  | Zpos p => HexString.Raw.of_pos p ""
  | Zneg p => String "-" (HexString.Raw.of_pos p "")
  end.

(** [Buffer.from(s, "hex")]: two digits a byte; decoding stops at the
    first pair that is not hexadecimal, and a last single character is
    dropped. *)
Fixpoint buffer_from_hex (s : string) : list Z :=
  match s with
  | String a (String b rest) =>
      match HexString.ascii_to_digit a, HexString.ascii_to_digit b with
      | Some x, Some y => Z.of_N (16 * x + y) :: buffer_from_hex rest
      | _, _ => []
      end
  | _ => []
  end.

(** An index argument of [slice]: negative counts from the end, and the
    result is clamped to the buffer. *)
Definition clamp_index (len i : Z) : Z :=
  if i <? 0 then Z.max (len + i) 0 else Z.min i len.

(** [buf.slice(start, end)]. *)
Definition buffer_slice {A} (buf : list A) (start end_ : Z) : list A :=
  let len := Z.of_nat (length buf) in
  let s := clamp_index len start in
  let e := clamp_index len end_ in
  take (Z.to_nat (e - s)) (drop (Z.to_nat s) buf).

(** [buf[i]]: [None] is [undefined]. *)
Definition at_index {A} (buf : list A) (i : Z) : option A :=
  if i <? 0 then None else buf !! Z.to_nat i.

(** [parseInt(buf[i])]: the integer itself; [None] is [NaN]. *)
Definition parseInt (x : option Z) : option Z := x.

(** [x === c] for a possibly undefined [x]. *)
Definition strict_eq (x : option Z) (c : Z) : bool :=
  match x with
  | Some v => v =? c
  | None => false
  end.

(** [a + b === c] on possibly-NaN operands. *)
Definition sum_eq (a b : option Z) (c : Z) : bool :=
  match a, b with
  | Some x, Some y => x + y =? c
  | _, _ => false
  end.

End Js.

Import Js.

(** ** Constants of the module *)

Definition SOH : Z := 0x01.
Definition EOT : Z := 0x04.
Definition ACK : Z := 0x06.
Definition NAK : Z := 0x15.
Definition CAN : Z := 0x18.
Definition FILLER : Z := 0x1a.
Definition CRC_MODE : Z := 0x43.

(** [Xmodem.XMODEM_OP_MODE]: the string ["crc"] or ["normal"]. *)
Inductive op_mode := Crc | Normal.

(** The static fields of the class that the handlers read and never
    assign. *)
Record config := Config {
  XMODEM_START_BLOCK : Z;
  XMODEM_MAX_TIMEOUTS : Z;
  XMODEM_MAX_ERRORS : Z;
  XMODEM_CRC_ATTEMPTS : Z;
  timeout_seconds : Z;
  block_size : Z
}.

Definition default_config : config :=
  {| XMODEM_START_BLOCK := 1;
     XMODEM_MAX_TIMEOUTS := 5;
     XMODEM_MAX_ERRORS := 10;
     XMODEM_CRC_ATTEMPTS := 3;
     timeout_seconds := 10;
     block_size := 128 |}.

(** ** CRC-16/XMODEM *)

(** One step of the bit-serial division by the polynomial 0x1021, most
    significant bit first. *)
Definition crc16_shift (c : Z) : Z :=
  if Z.testbit c 15
  then Z.land (Z.lxor (Z.shiftl c 1) 0x1021) 0xFFFF
  else Z.land (Z.shiftl c 1) 0xFFFF.

Definition crc16_update (c b : Z) : Z :=
  Nat.iter 8 crc16_shift (Z.lxor c (Z.shiftl b 8)).

(** Modelled from the spec: [crc.crc16xmodem] of the [crc] package, which the
    program imports and whose source is not part of the repository. It is
    CRC-16/XMODEM: polynomial 0x1021, initial value 0x0000, no reflection,
    no final xor, computed over the bytes in order. *)
Definition crc16xmodem (data : list Z) : Z :=
  fold_left crc16_update data 0.

(** ** Effects *)

Inductive action := ActSend | ActRecv.
Inductive signal := SigSOH | SigEOT | SigACK | SigNAK.

(** The events the class emits. *)
Inductive event :=
| Ready (blocks : Z)
| Start (m : op_mode)
| Status (a : action) (s : signal) (block : option Z)
| Stop (code : Z).

(** An entry of [packagedBuffer]: the empty string pushed as filler before
    the start block, or a buffer. *)
Inductive chunk :=
| Placeholder
| Block (data : list Z).

Inductive effect :=
| SocketWrite (data : list Z)
| Emit (e : event)
| ClearInterval
| WriteFile (buffer : list chunk)
| SocketDestroy
| SocketClose
| RemoveListener.

(** A computation: the effects performed, then the value returned, or
    [None] when an exception was thrown. *)
Definition Eff (A : Type) : Type := (list effect * option A)%type.

Definition ret {A} (a : A) : Eff A := ([], Some a).

Definition throw {A} : Eff A := ([], None).

Definition tell (e : effect) : Eff unit := ([e], Some tt).

Definition bind {A B} (m : Eff A) (f : A -> Eff B) : Eff B :=
  match m with
  | (t, None) => (t, None)
  | (t, Some a) => let '(t', r) := f a in (t ++ t', r)
  end.

Notation "m ;;; k" := (bind m (fun _ => k))
  (at level 20, k at level 200, only parsing).

(** ** The block encoder *)

(** The two bytes appended in ["crc"] mode: the hexadecimal text of the
    CRC, padded to an even length, and to four digits when it has two. *)
Definition crc_bytes (crcValue : Z) : list Z :=
  let crcString := toString16 crcValue in
  let crcString :=
    if (String.length crcString mod 2 =? 1)%nat
    then ("0" ++ crcString)%string else crcString in
  let crcString :=
    if (String.length crcString =? 2)%nat
    then ("00" ++ crcString)%string else crcString in
  buffer_from_hex crcString.

(** The byte appended in the other mode: the sum reduced with [% 256] and
    written as hexadecimal text of even length. *)
Definition checksum_bytes (crcCalc : Z) : list Z :=
  let crcCalc := Z.rem crcCalc 256 in
  let crcCalcStr := toString16 crcCalc in
  let crcCalcStr :=
    if negb (String.length crcCalcStr mod 2 =? 0)%nat
    then ("0" ++ crcCalcStr)%string else crcCalcStr in
  buffer_from_hex crcCalcStr.

(** The loop [for (i = 3; i < sendBuffer.length; i++)] adding the bytes. *)
Definition sum_from_3 (sendBuffer : list Z) : Z :=
  fold_left Z.add (drop 3 sendBuffer) 0.

(** The buffer [sendBlock] writes for a block that is a buffer. *)
Definition sendBlock_frame (blockNr : Z) (blockData : list Z) (mode : op_mode)
  : list Z :=
  let sendBuffer :=
    [SOH] ++ [to_uint8 blockNr] ++ [to_uint8 (0xff - blockNr)] ++ blockData in
  match mode with
  | Crc => sendBuffer ++ crc_bytes (crc16xmodem blockData)
  | Normal => sendBuffer ++ checksum_bytes (sum_from_3 sendBuffer)
  end.

(** [sendBlock(socket, blockNr, blockData, mode)]. [Buffer.concat] throws on
    an entry that is not a buffer. *)
Definition sendBlock (blockNr : Z) (blockData : option chunk) (mode : op_mode)
  : Eff unit :=
  match blockData with
  | Some (Block data) => tell (SocketWrite (sendBlock_frame blockNr data mode))
  | _ => throw
  end.

(** ** The block decoder *)

(** Which branch of [receiveBlock] a frame takes. *)
Inductive block_result :=
| Accepted (current_block : list Z)
| NotData
| Corrupt
| OutOfSync
| SizeMismatch.

Definition checksum_length (mode : op_mode) : Z :=
  match mode with Crc => 2 | Normal => 1 end.

(** [receiveBlock(socket, blockNr, blockData, block_size, mode, callback)]:
    the effects on the socket and the branch taken; [callback] is called
    with the payload exactly in the [Accepted] case, after the ACK. *)
Definition receiveBlock (blockNr : Z) (blockData : list Z) (block_size : Z)
    (mode : op_mode) : list effect * block_result :=
  let cmd := at_index blockData 0 in
  let block := parseInt (at_index blockData 1) in
  let block_check := parseInt (at_index blockData 2) in
  if strict_eq cmd SOH then
    if sum_eq block block_check 0xff then
      if strict_eq block (Z.rem blockNr 0x100) then
        let current_block :=
          buffer_slice blockData 3
            (Z.of_nat (length blockData) - checksum_length mode) in
        if Z.of_nat (length current_block) =? block_size
        then ([SocketWrite [ACK]], Accepted current_block)
        else ([SocketWrite [NAK]], SizeMismatch)
      else ([], OutOfSync)
    else ([SocketWrite [NAK]], Corrupt)
  else ([], NotData).

(** ** Dispatch of inbound chunks *)

Definition is_remove_listener (e : effect) : bool :=
  match e with RemoveListener => true | _ => false end.

(** [socket.on("data", handler)]: the chunks are handed to the handler one
    after the other, until the handler has removed itself; an exception it
    throws is not caught. *)
Fixpoint deliver {S} (handler : S -> list Z -> Eff S) (st : S)
    (chunks : list (list Z)) : Eff S :=
  match chunks with
  | [] => ret st
  | data :: rest =>
      match handler st data with
      | (t, None) => (t, None)
      | (t, Some st') =>
          if existsb is_remove_listener t then (t, Some st')
          else let '(t', r) := deliver handler st' rest in (t ++ t', r)
      end
  end.

(** ** The sender *)

Module Sender.

(** The variables [sendData] closes over, and the mode it assigns. *)
Record vars := Vars {
  blockNumber : Z;
  packagedBuffer : list chunk;
  sent_eof : bool;
  XMODEM_OP_MODE : op_mode
}.

Definition set_blockNumber (st : vars) (n : Z) : vars :=
  Vars n (packagedBuffer st) (sent_eof st) (XMODEM_OP_MODE st).

Definition set_sent_eof (st : vars) (b : bool) : vars :=
  Vars (blockNumber st) (packagedBuffer st) b (XMODEM_OP_MODE st).

Definition set_mode (st : vars) (m : op_mode) : vars :=
  Vars (blockNumber st) (packagedBuffer st) (sent_eof st) m.

(** One pass of the inner loop of [send]: [block_size] bytes, the filler
    byte where [dataBuffer] has none. *)
Definition fill_block (block_size : Z) (dataBuffer : list Z) : list Z :=
  map (fun i => default FILLER (dataBuffer !! i))
      (seq 0 (Z.to_nat block_size)).

(** The loop [while (dataBuffer.length > 0)] of [send], run for at most
    [fuel] passes. Each pass removes [block_size] bytes, so
    [length dataBuffer] passes are enough when [block_size] is
    positive; the source loops for ever otherwise. *)
Fixpoint package (fuel : nat) (block_size : Z) (dataBuffer : list Z)
  : list chunk :=
  match fuel with
  | O => []
  | S fuel' =>
      if 0 <? Z.of_nat (length dataBuffer)
      then Block (fill_block block_size dataBuffer)
           :: package fuel' block_size
                (buffer_slice dataBuffer block_size
                   (Z.of_nat (length dataBuffer)))
      else []
  end.

(** [send(socket, dataBuffer)] up to [socket.on("data", sendData)]. *)
Definition send (cfg : config) (mode : op_mode) (dataBuffer : list Z)
  : Eff vars :=
  let packagedBuffer :=
    replicate (Z.to_nat (XMODEM_START_BLOCK cfg)) Placeholder
    ++ package (length dataBuffer) (block_size cfg) dataBuffer in
  tell (Emit (Ready (Z.of_nat (length packagedBuffer) - 1))) ;;;
  ret (Vars (XMODEM_START_BLOCK cfg) packagedBuffer false mode).

(** The three statements [sendBlock(...)], [emit("status", ...)],
    [blockNumber++] that every transmitting branch ends with. *)
Definition transmit (st : vars) : Eff vars :=
  sendBlock (blockNumber st)
    (at_index (packagedBuffer st) (blockNumber st)) (XMODEM_OP_MODE st) ;;;
  tell (Emit (Status ActSend SigSOH (Some (blockNumber st)))) ;;;
  ret (set_blockNumber st (blockNumber st + 1)).

(** The branches for the first byte of the session, which fix the mode. *)
Definition begin (st : vars) (m : op_mode) : Eff vars :=
  let st := set_mode st m in
  if Z.of_nat (length (packagedBuffer st)) >? blockNumber st
  then tell (Emit (Start m)) ;;; transmit st
  else ret st.

(** [sendData(data)]. *)
Definition sendData (cfg : config) (st : vars) (data : list Z) : Eff vars :=
  let first := at_index data 0 in
  let len := Z.of_nat (length (packagedBuffer st)) in
  if strict_eq first CRC_MODE
     && (blockNumber st =? XMODEM_START_BLOCK cfg) then
    begin st Crc
  else if strict_eq first NAK
          && (blockNumber st =? XMODEM_START_BLOCK cfg) then
    begin st Normal
  else if strict_eq first ACK
          && (blockNumber st >? XMODEM_START_BLOCK cfg) then
    tell (Emit (Status ActRecv SigACK None)) ;;;
    if len >? blockNumber st then transmit st
    else if len =? blockNumber st then
      if negb (sent_eof st) then
        tell (Emit (Status ActSend SigEOT None)) ;;;
        tell (SocketWrite [EOT]) ;;;
        ret (set_sent_eof st true)
      else
        tell (Emit (Stop 0)) ;;;
        tell RemoveListener ;;;
        ret st
    else ret st
  else if strict_eq first NAK
          && (blockNumber st >? XMODEM_START_BLOCK cfg) then
    if (blockNumber st =? len) && sent_eof st then
      tell (Emit (Status ActSend SigEOT None)) ;;;
      tell (SocketWrite [EOT]) ;;;
      ret st
    else
      tell (Emit (Status ActRecv SigNAK None)) ;;;
      let st := set_blockNumber st (blockNumber st - 1) in
      if len >? blockNumber st then transmit st else ret st
  else ret st.

End Sender.

(** ** The receiver *)

(** [socket.constructor.name]: ["Socket"], ["SerialPort"], or another
    name. *)
Inductive transport := NetSocket | SerialPort | OtherTransport.

(** The scan of the last chunk on EOT, [k] being [i + 1]: the index
    goes down while the byte is the filler; at the first other byte the
    chunk is replaced by [slice(0, i + 1)] ([Some]); when the index runs
    out nothing is assigned ([None]). *)
Fixpoint trim_scan (last : list Z) (k : nat) : option (list Z) :=
  match k with
  | O => None
  | S i =>
      if strict_eq (last !! i) FILLER then trim_scan last i
      else Some (buffer_slice last 0 (Z.of_nat i + 1))
  end.

(** The loop over [packagedBuffer[blockNumber]] on EOT, for each kind of
    entry; the empty string has length 0 and is left alone. *)
Definition trim_last (packagedBuffer : list chunk) (blockNumber : Z)
    (last : chunk) : list chunk :=
  match last with
  | Placeholder => packagedBuffer
  | Block data =>
      match trim_scan data (length data) with
      | Some data' => <[Z.to_nat blockNumber := Block data']> packagedBuffer
      | None => packagedBuffer
      end
  end.

(** [writeFile(buffer, filename, callback)]: the entries are written in
    order once the stream is open, then [callback] runs. *)
Definition writeFile (buffer : list chunk) (callback : Eff unit) : Eff unit :=
  tell (WriteFile buffer) ;;; callback.

(** The bytes a [WriteFile] puts in the file. *)
Definition chunk_bytes (c : chunk) : list Z :=
  match c with
  | Placeholder => []
  | Block data => data
  end.

Definition file_bytes (buffer : list chunk) : list Z :=
  concat (map chunk_bytes buffer).

Module Receiver.

(** The variables [receiveData] closes over, and the mode it reads. *)
Record vars := Vars {
  blockNumber : Z;
  packagedBuffer : list chunk;
  transfer_initiated : bool;
  tryCounter : Z;
  XMODEM_OP_MODE : op_mode
}.

(** [receive(socket, filename)] up to [socket.on("data", receiveData)],
    without the interval timers it starts. *)
Definition receive (cfg : config) (mode : op_mode) : Eff vars :=
  (match mode with
   | Crc => tell (SocketWrite [CRC_MODE])
   | Normal => ret tt
   end) ;;;
  ret (Vars (XMODEM_START_BLOCK cfg)
         (replicate (Z.to_nat (XMODEM_START_BLOCK cfg)) Placeholder)
         false 0 mode).

(** The first block stops the probing. *)
Definition initiate (st : vars) : Eff vars :=
  if negb (transfer_initiated st) then
    tell ClearInterval ;;;
    ret (Vars (blockNumber st) (packagedBuffer st) true (tryCounter st)
           (XMODEM_OP_MODE st))
  else ret st.

(** The callback passed to [receiveBlock]. *)
Definition accept (st : vars) (current_block : list Z) : vars :=
  Vars (blockNumber st + 1)
    (packagedBuffer st ++ [Block current_block])
    (transfer_initiated st) 0 (XMODEM_OP_MODE st).

(** The callback passed to [writeFile]. *)
Definition finish (kind : transport) : Eff unit :=
  (match kind with
   | NetSocket => tell SocketDestroy
   | SerialPort => tell SocketClose
   | OtherTransport => ret tt
   end) ;;;
  tell RemoveListener.

(** [receiveData(data)]. *)
Definition receiveData (cfg : config) (kind : transport) (st : vars)
    (data : list Z) : Eff vars :=
  let st := Vars (blockNumber st) (packagedBuffer st)
              (transfer_initiated st) (tryCounter st + 1)
              (XMODEM_OP_MODE st) in
  let first := at_index data 0 in
  if strict_eq first NAK
     && (blockNumber st =? XMODEM_START_BLOCK cfg) then
    ret st
  else if strict_eq first SOH
          && (tryCounter st <=? XMODEM_MAX_ERRORS cfg) then
    bind (initiate st) (fun st =>
      let '(written, result) :=
        receiveBlock (blockNumber st) data (block_size cfg)
          (XMODEM_OP_MODE st) in
      (written, Some tt) ;;;
      match result with
      | Accepted current_block => ret (accept st current_block)
      | _ => ret st
      end)
  else if strict_eq first EOT then
    tell (SocketWrite [ACK]) ;;;
    let blockNumber' := blockNumber st - 1 in
    match at_index (packagedBuffer st) blockNumber' with
    | None => throw
    | Some last =>
        let packagedBuffer' :=
          trim_last (packagedBuffer st) blockNumber' last in
        writeFile packagedBuffer' (finish kind) ;;;
        ret (Vars blockNumber' packagedBuffer' (transfer_initiated st)
               (tryCounter st) (XMODEM_OP_MODE st))
    end
  else ret st.

End Receiver.

(** ** Definitions used by the statements and their proofs *)

(** [f] holds at [z], [z + 1], ..., [z + n - 1]: an exhaustive check over a
    range of integers. *)
Fixpoint below_from (n : nat) (z : Z) (f : Z -> bool) : bool :=
  match n with
  | O => true
  | S n' => f z && below_from n' (z + 1) f
  end.

Definition below (n : nat) (f : Z -> bool) : bool := below_from n 0 f.

(** The sum of the bytes of a payload. *)
Definition byte_sum (payload : list Z) : Z := foldr Z.add 0 payload.

(** The trailer of a frame: what follows the three header bytes and the
    payload. *)
Definition trailer_of (payload frame : list Z) : list Z :=
  drop (3 + length payload) frame.

(** What the block encoder appends to a payload in a mode. *)
Definition expected_trailer (mode : op_mode) (payload : list Z) : list Z :=
  trailer_of payload (sendBlock_frame 0 payload mode).

(** A frame the decoder answers with NAK when it expects [blockNr]. *)
Definition rejected (blockNr block_size : Z) (mode : op_mode)
    (frame : list Z) : Prop :=
  snd (receiveBlock blockNr frame block_size mode) = Corrupt
  \/ snd (receiveBlock blockNr frame block_size mode) = SizeMismatch.

Definition is_emit (e : effect) : bool :=
  match e with Emit _ => true | _ => false end.

Definition is_write_file (e : effect) : bool :=
  match e with WriteFile _ => true | _ => false end.

Definition is_teardown (e : effect) : bool :=
  match e with SocketDestroy | SocketClose => true | _ => false end.

(** What a trace writes to the socket, in order. *)
Definition socket_writes (t : list effect) : list (list Z) :=
  omap (fun e => match e with SocketWrite d => Some d | _ => None end) t.

(** The last buffer a trace writes to the socket. *)
Definition last_write (t : list effect) : option (list Z) :=
  last (socket_writes t).

(** What the sender has sent last and not yet seen acknowledged: EOT once
    it has been sent, else the frame of the block before the cursor. *)
Definition in_flight (st : Sender.vars) : list Z :=
  if Sender.sent_eof st then [EOT]
  else
    match at_index (Sender.packagedBuffer st) (Sender.blockNumber st - 1) with
    | Some (Block payload) =>
        sendBlock_frame (Sender.blockNumber st - 1) payload
          (Sender.XMODEM_OP_MODE st)
    | _ => []
    end.

(** What the sender does on NAK once it is past the start block. *)
Definition nak_response (st : Sender.vars) : list effect :=
  if Sender.sent_eof st
  then [Emit (Status ActSend SigEOT None); SocketWrite [EOT]]
  else [Emit (Status ActRecv SigNAK None);
        SocketWrite (in_flight st);
        Emit (Status ActSend SigSOH (Some (Sender.blockNumber st - 1)))].

(** The states [sendData] can be in, with the trace so far: after [send],
    and after each inbound chunk. *)
Inductive sender_reaches (cfg : config) (mode : op_mode) (dataBuffer : list Z)
  : list effect -> Sender.vars -> Prop :=
| reaches_send t st :
    Sender.send cfg mode dataBuffer = (t, Some st) ->
    sender_reaches cfg mode dataBuffer t st
| reaches_data t st data t' st' :
    sender_reaches cfg mode dataBuffer t st ->
    Sender.sendData cfg st data = (t', Some st') ->
    sender_reaches cfg mode dataBuffer (t ++ t') st'.

(** The cursor stays between the start block and the end of the queue, it
    is at the end once EOT has been sent, and from the start block on the
    queue holds buffers. *)
Definition sender_inv (cfg : config) (st : Sender.vars) : Prop :=
  XMODEM_START_BLOCK cfg <= Sender.blockNumber st
    <= Z.of_nat (length (Sender.packagedBuffer st))
  /\ (Sender.sent_eof st = true ->
      Sender.blockNumber st = Z.of_nat (length (Sender.packagedBuffer st)))
  /\ (forall i,
        XMODEM_START_BLOCK cfg <= i
          < Z.of_nat (length (Sender.packagedBuffer st)) ->
        exists payload,
          at_index (Sender.packagedBuffer st) i = Some (Block payload)).


(** ** Definitions used by the further properties *)

(** The filler bytes [send] appends to a payload of [len] bytes. *)
Definition padding (block_size : Z) (len : nat) : nat :=
  Z.to_nat ((- Z.of_nat len) mod block_size).

(** The frames of consecutive blocks, the first one numbered [blockNr]. *)
Fixpoint block_frames (blockNr : Z) (mode : op_mode) (blocks : list (list Z))
  : list (list Z) :=
  match blocks with
  | [] => []
  | payload :: rest =>
      sendBlock_frame blockNr payload mode
        :: block_frames (blockNr + 1) mode rest
  end.

(** What the sender does, ACK after ACK, while blocks remain: the status
    event for the ACK, the frame of the next block, the status event for
    the block. *)
Fixpoint ack_traces (blockNr : Z) (mode : op_mode) (blocks : list (list Z))
  : list effect :=
  match blocks with
  | [] => []
  | payload :: rest =>
      [Emit (Status ActRecv SigACK None);
       SocketWrite (sendBlock_frame blockNr payload mode);
       Emit (Status ActSend SigSOH (Some blockNr))]
        ++ ack_traces (blockNr + 1) mode rest
  end.

(** The mode a first byte asks for. *)
Definition requested_mode (first : Z) : option op_mode :=
  if first =? CRC_MODE then Some Crc
  else if first =? NAK then Some Normal
  else None.

(** The queue [send] builds from blocks. *)
Definition queue_of (cfg : config) (blocks : list (list Z)) : list chunk :=
  replicate (Z.to_nat (XMODEM_START_BLOCK cfg)) Placeholder
  ++ map Block blocks.

(** A buffer the sender may write: EOT, or the frame of a block of the
    queue under its own index. *)
Definition queued_write (cfg : config) (queue : list chunk) (w : list Z)
  : Prop :=
  w = [EOT]
  \/ exists i payload mode,
       XMODEM_START_BLOCK cfg <= i
       /\ at_index queue i = Some (Block payload)
       /\ w = sendBlock_frame i payload mode.

(** A block as the receiver can take it from the sender: bytes, and as
    many as the block size. *)
Definition well_formed_block (cfg : config) (payload : list Z) : Prop :=
  bytes payload /\ Z.of_nat (length payload) = block_size cfg.

(** A chunk the receiver's handler has no branch for, or only the branch
    that logs a NAK at the start block: its first byte is neither SOH nor
    EOT. *)
Definition stray (data : list Z) : Prop :=
  strict_eq (at_index data 0) SOH = false
  /\ strict_eq (at_index data 0) EOT = false.

(** The byte with which a receiver in a mode asks for the transfer. *)
Definition probe_byte (mode : op_mode) : Z :=
  match mode with Crc => CRC_MODE | Normal => NAK end.


(** ** The probing intervals of [receive] *)

(** The two callbacks [receive] gives to [setIntervalX]. *)
Inductive probe := CrcProbe | NakProbe.

(** An interval started by [setIntervalX(callback, delay, repetitions)],
    with the counter [x] of its firings so far. *)
Record interval := Interval {
  callback : probe;
  x : Z;
  repetitions : Z
}.

Definition is_clear_interval (e : effect) : bool :=
  match e with ClearInterval => true | _ => false end.

Definition is_Some_bool {A} (o : option A) : bool :=
  match o with Some _ => true | None => false end.

Module Probing.

(** The receiver, the interval [receive_interval_timer] holds ([None] is
    [false]), and whether [receiveData] is still attached. *)
Record session := Session {
  vars : Receiver.vars;
  receive_interval_timer : option interval;
  listening : bool
}.

Definition nak_tick (cfg : config) : Z :=
  XMODEM_MAX_ERRORS cfg * timeout_seconds cfg * 3.

Definition crc_tick (cfg : config) : Z := XMODEM_CRC_ATTEMPTS cfg.

(** [receive(socket, filename)]: the first probe, the interval, the
    listener. *)
Definition receive (cfg : config) (mode : op_mode) : Eff session :=
  bind (Receiver.receive cfg mode) (fun v =>
    ret (Session v
           (Some (match mode with
                  | Crc => Interval CrcProbe 0 (crc_tick cfg - 1)
                  | Normal => Interval NakProbe 0 (nak_tick cfg)
                  end))
           true)).

(** The callback that probes with NAK. *)
Definition nak_callback (v : Receiver.vars) : Eff Receiver.vars :=
  tell (SocketWrite [NAK]) ;;;
  ret (Receiver.Vars (Receiver.blockNumber v) (Receiver.packagedBuffer v)
         (Receiver.transfer_initiated v) (Receiver.tryCounter v) Normal).

(** The callback that probes with C: it takes the interval variable as the
    function of [setIntervalX] left it and gives back its new value, the
    NAK interval when it falls back. *)
Definition crc_callback (cfg : config) (v : Receiver.vars)
    (timer : option interval) : Eff (option interval) :=
  bind (if negb (Receiver.transfer_initiated v)
        then tell (SocketWrite [CRC_MODE]) ;;; ret timer
        else tell ClearInterval ;;; ret None)
    (fun timer =>
       if negb (is_Some_bool timer) && negb (Receiver.transfer_initiated v)
       then ret (Some (Interval NakProbe 0 (nak_tick cfg)))
       else ret timer).

(** One firing of the live interval: the function [setIntervalX] hands to
    [setInterval] counts, clears the interval when [++x === repetitions],
    and calls the callback. *)
Definition fire (cfg : config) (s : session) : Eff session :=
  match receive_interval_timer s with
  | None => ret s
  | Some i =>
      bind (if x i + 1 =? repetitions i
            then tell ClearInterval ;;; ret None
            else ret (Some (Interval (callback i) (x i + 1) (repetitions i))))
        (fun timer =>
           match callback i with
           | CrcProbe =>
               bind (crc_callback cfg (vars s) timer) (fun timer =>
                 ret (Session (vars s) timer (listening s)))
           | NakProbe =>
               bind (nak_callback (vars s)) (fun v =>
                 ret (Session v timer (listening s)))
           end)
  end.

(** A chunk arrives: [receiveData] runs if it is attached; the interval
    variable is reset when the handler clears the interval. *)
Definition on_data (cfg : config) (kind : transport) (s : session)
    (data : list Z) : Eff session :=
  if listening s then
    match Receiver.receiveData cfg kind (vars s) data with
    | (t, None) => (t, None)
    | (t, Some v) =>
        (t, Some (Session v
                    (if existsb is_clear_interval t then None
                     else receive_interval_timer s)
                    (negb (existsb is_remove_listener t))))
    end
  else ret s.

(** The receiver has not seen a block yet. *)
Definition uninitiated (v : Receiver.vars) : Prop :=
  Receiver.transfer_initiated v = false.

(** The receiver after the NAK callback has set the mode. *)
Definition normal_vars (v : Receiver.vars) : Receiver.vars :=
  Receiver.Vars (Receiver.blockNumber v) (Receiver.packagedBuffer v)
    (Receiver.transfer_initiated v) (Receiver.tryCounter v) Normal.

Inductive inbound :=
| TimerFires
| ChunkArrives (data : list Z).

Definition on_event (cfg : config) (kind : transport) (s : session)
    (ev : inbound) : Eff session :=
  match ev with
  | TimerFires => fire cfg s
  | ChunkArrives data => on_data cfg kind s data
  end.

Fixpoint react (cfg : config) (kind : transport) (s : session)
    (evs : list inbound) : Eff session :=
  match evs with
  | [] => ret s
  | ev :: rest =>
      bind (on_event cfg kind s ev) (fun s' => react cfg kind s' rest)
  end.

End Probing.
(** * Properties *)

(** ** Hexadecimal text and the trailer bytes *)

Lemma below_from_true n : forall z0 f,
  below_from n z0 f = true ->
  forall z, z0 <= z < z0 + Z.of_nat n -> f z = true.
Proof.
  induction n as [|n IH]; intros z0 f H z Hz; [lia|].
  simpl in H. apply andb_true_iff in H as [H0 H1].
  destruct (Z.eq_dec z z0) as [->|Hne]; [done|].
  apply (IH _ _ H1). lia.
Qed.

Lemma below_true n f :
  below n f = true -> forall z, 0 <= z < Z.of_nat n -> f z = true.
Proof. intros H z Hz. apply (below_from_true _ _ _ H). lia. Qed.

Lemma checksum_bytes_small z :
  0 <= z < 256 -> checksum_bytes z = [z].
Proof.
  intros Hz.
  assert (H : below (Z.to_nat 256)
                (fun z => bool_decide (checksum_bytes z = [z])) = true)
    by (vm_compute; reflexivity).
  eapply bool_decide_eq_true_1, (below_true _ _ H). lia.
Qed.

Lemma crc_bytes_small z :
  0 <= z < 65536 -> crc_bytes z = [z / 256; z mod 256].
Proof.
  intros Hz.
  assert (H : below (Z.to_nat 65536)
                (fun z => bool_decide (crc_bytes z = [z / 256; z mod 256]))
              = true)
    by (vm_compute; reflexivity).
  eapply bool_decide_eq_true_1, (below_true _ _ H). lia.
Qed.

Lemma checksum_bytes_nonneg z :
  0 <= z -> checksum_bytes z = [z mod 256].
Proof.
  intros Hz.
  assert (Hr : Z.rem z 256 = z mod 256) by (apply Z.rem_mod_nonneg; lia).
  rewrite <- (checksum_bytes_small (z mod 256)) by (apply Z.mod_pos_bound; lia).
  unfold checksum_bytes. rewrite Hr.
  by rewrite (Z.rem_mod_nonneg (z mod 256)), Z.mod_mod
    by (try apply Z.mod_pos_bound; lia).
Qed.

(** ** The checksum engine *)

Lemma fold_left_add_acc (l : list Z) (acc : Z) :
  fold_left Z.add l acc = acc + byte_sum l.
Proof.
  revert acc. induction l as [|x l IH]; intros acc; simpl; [lia|].
  rewrite IH. lia.
Qed.

Lemma byte_sum_nonneg payload : bytes payload -> 0 <= byte_sum payload.
Proof.
  induction 1 as [|x l Hx _ IH]; simpl; [lia|]. unfold is_byte in Hx. lia.
Qed.

Lemma sum_from_3_header a b c payload :
  sum_from_3 (a :: b :: c :: payload) = byte_sum payload.
Proof. unfold sum_from_3. simpl. by rewrite fold_left_add_acc. Qed.

Lemma crc16_shift_range c : 0 <= crc16_shift c < 65536.
Proof.
  unfold crc16_shift.
  change 0xFFFF with (Z.ones 16).
  destruct (Z.testbit c 15); rewrite Z.land_ones by lia;
    apply Z.mod_pos_bound; lia.
Qed.

Lemma crc16_update_range c b : 0 <= crc16_update c b < 65536.
Proof. unfold crc16_update. simpl. apply crc16_shift_range. Qed.

Lemma crc16xmodem_range data : 0 <= crc16xmodem data < 65536.
Proof.
  unfold crc16xmodem.
  assert (H : forall c, 0 <= c < 65536 ->
                        0 <= fold_left crc16_update data c < 65536).
  { induction data as [|b data IH]; intros c Hc; simpl; [done|].
    apply IH, crc16_update_range. }
  apply H. lia.
Qed.

(** The check value of CRC-16/XMODEM: the CRC of the ASCII text
    [123456789] is 0x31C3. *)
Example crc16xmodem_check_value :
  crc16xmodem [0x31; 0x32; 0x33; 0x34; 0x35; 0x36; 0x37; 0x38; 0x39] = 0x31C3.
Proof. reflexivity. Qed.

(** ** Frames *)

Lemma sendBlock_frame_normal blockNr payload :
  bytes payload ->
  sendBlock_frame blockNr payload Normal =
  SOH :: to_uint8 blockNr :: to_uint8 (0xff - blockNr)
      :: payload ++ [byte_sum payload mod 256].
Proof.
  intros Hb. unfold sendBlock_frame. cbn [app].
  by rewrite sum_from_3_header, checksum_bytes_nonneg
    by (by apply byte_sum_nonneg).
Qed.

Lemma sendBlock_frame_crc blockNr payload :
  sendBlock_frame blockNr payload Crc =
  SOH :: to_uint8 blockNr :: to_uint8 (0xff - blockNr)
      :: payload ++ [crc16xmodem payload / 256; crc16xmodem payload mod 256].
Proof.
  unfold sendBlock_frame. cbn [app].
  by rewrite crc_bytes_small by apply crc16xmodem_range.
Qed.

(** C5. In checksum mode the block encoder writes the three header bytes,
    the payload, and then exactly one byte, the sum of the payload bytes
    modulo 256; the header bytes are not part of the sum. *)
Theorem checksum_trailer_is_byte_sum (blockNr : Z) (payload : list Z) :
  bytes payload ->
  trailer_of payload (sendBlock_frame blockNr payload Normal)
    = [byte_sum payload mod 256]
  /\ length (sendBlock_frame blockNr payload Normal)
     = (3 + length payload + 1)%nat.
Proof.
  intros Hb. rewrite sendBlock_frame_normal by done. unfold trailer_of.
  split.
  - cbn [drop Nat.add]. by rewrite drop_app_length.
  - cbn [length]. rewrite length_app. simpl. lia.
Qed.

Lemma checksum_trailer_is_byte_sum_witness :
  bytes [0x41; 0xF0; 0xFF] /\
  trailer_of [0x41; 0xF0; 0xFF] (sendBlock_frame 1 [0x41; 0xF0; 0xFF] Normal)
    = [0x30]
  /\ length (sendBlock_frame 1 [0x41; 0xF0; 0xFF] Normal) = 7%nat.
Proof.
  assert (H : bytes [0x41; 0xF0; 0xFF])
    by (repeat constructor; unfold is_byte; lia).
  split; [exact H|].
  exact (checksum_trailer_is_byte_sum 1 [0x41; 0xF0; 0xFF] H).
Defined.

(** C6. In crc mode the block encoder writes the three header bytes, the
    payload, and then exactly two bytes: the CRC-16/XMODEM of the payload,
    most significant byte first. *)
Theorem crc_trailer_is_crc16_big_endian (blockNr : Z) (payload : list Z) :
  trailer_of payload (sendBlock_frame blockNr payload Crc)
    = [crc16xmodem payload / 256; crc16xmodem payload mod 256]
  /\ length (sendBlock_frame blockNr payload Crc)
     = (3 + length payload + 2)%nat
  /\ 0 <= crc16xmodem payload < 65536.
Proof.
  rewrite sendBlock_frame_crc. unfold trailer_of. split; [|split].
  - cbn [drop Nat.add]. by rewrite drop_app_length.
  - cbn [length]. rewrite length_app. simpl. lia.
  - apply crc16xmodem_range.
Qed.

(** ** The block decoder *)

Lemma buffer_slice_payload {A} (a b c : A) (payload trailer : list A) :
  buffer_slice (a :: b :: c :: payload ++ trailer) 3
    (Z.of_nat (length (a :: b :: c :: payload ++ trailer))
     - Z.of_nat (length trailer))
  = payload.
Proof.
  unfold buffer_slice, clamp_index. cbn [length]. rewrite length_app.
  destruct (Z.ltb_spec 3 0) as [?|_]; [lia|].
  destruct (Z.ltb_spec
              (Z.of_nat (S (S (S (length payload + length trailer))))
               - Z.of_nat (length trailer)) 0) as [?|_]; [lia|].
  rewrite !Z.min_l by lia.
  replace (Z.to_nat 3) with 3%nat by lia. cbn [drop].
  replace (Z.to_nat _) with (length payload) by lia.
  apply take_app_length.
Qed.

Lemma at_index_0 {A} (a : A) l : at_index (a :: l) 0 = Some a.
Proof. reflexivity. Qed.

Lemma at_index_1 {A} (a b : A) l : at_index (a :: b :: l) 1 = Some b.
Proof. reflexivity. Qed.

Lemma at_index_2 {A} (a b c : A) l : at_index (a :: b :: c :: l) 2 = Some c.
Proof. reflexivity. Qed.

(** A frame with a valid header and a payload of the expected size is
    accepted; the trailer only has to have the width of the mode. *)
Lemma receiveBlock_accepts blockNr s c payload trailer bs mode :
  s + c = 0xff ->
  s = Z.rem blockNr 0x100 ->
  Z.of_nat (length trailer) = checksum_length mode ->
  Z.of_nat (length payload) = bs ->
  receiveBlock blockNr (SOH :: s :: c :: payload ++ trailer) bs mode
  = ([SocketWrite [ACK]], Accepted payload).
Proof.
  intros Hsum Hseq Htr Hbs. unfold receiveBlock.
  rewrite at_index_0, at_index_1, at_index_2. cbn [parseInt strict_eq sum_eq].
  rewrite Z.eqb_refl.
  rewrite (proj2 (Z.eqb_eq _ _) Hsum), (proj2 (Z.eqb_eq _ _) Hseq).
  rewrite <- Htr, buffer_slice_payload.
  by rewrite (proj2 (Z.eqb_eq _ _) Hbs).
Qed.

Lemma to_uint8_complement blockNr :
  to_uint8 blockNr + to_uint8 (0xff - blockNr) = 0xff.
Proof.
  unfold to_uint8.
  pose proof (Z.mod_pos_bound blockNr 256 ltac:(lia)).
  pose proof (Z.div_mod blockNr 256 ltac:(lia)).
  assert (Hc : (255 - blockNr) mod 256 = 255 - blockNr mod 256).
  { symmetry. apply (Z.mod_unique _ _ (- (blockNr / 256))); lia. }
  lia.
Qed.

Lemma sendBlock_frame_shape blockNr payload mode :
  bytes payload ->
  exists trailer,
    sendBlock_frame blockNr payload mode =
      SOH :: to_uint8 blockNr :: to_uint8 (0xff - blockNr)
          :: payload ++ trailer
    /\ Z.of_nat (length trailer) = checksum_length mode.
Proof.
  intros Hb. destruct mode.
  - eexists. by rewrite sendBlock_frame_crc.
  - eexists. by rewrite sendBlock_frame_normal.
Qed.

(** The decoder accepts what the encoder built. *)
Lemma receiveBlock_accepts_sendBlock_frame seq payload mode :
  0 <= seq ->
  bytes payload ->
  receiveBlock seq (sendBlock_frame seq payload mode)
    (Z.of_nat (length payload)) mode
  = ([SocketWrite [ACK]], Accepted payload).
Proof.
  intros Hseq Hb.
  destruct (sendBlock_frame_shape seq payload mode Hb) as (tr & -> & Htr).
  apply receiveBlock_accepts; try done.
  - apply to_uint8_complement.
  - unfold to_uint8. symmetry. apply Z.rem_mod_nonneg; lia.
Qed.

(** C2. Decoding what the encoder built, with the same block number, the
    payload's length as block size and the same mode, accepts the frame and
    hands back exactly the payload. *)
Theorem receiveBlock_sendBlock_roundtrip
    (seq : Z) (payload : list Z) (mode : op_mode) :
  0 <= seq ->
  bytes payload ->
  receiveBlock seq (sendBlock_frame seq payload mode)
    (Z.of_nat (length payload)) mode
  = ([SocketWrite [ACK]], Accepted payload).
Proof. apply receiveBlock_accepts_sendBlock_frame. Qed.

Lemma receiveBlock_sendBlock_roundtrip_witness :
  (0 <= 300 /\ bytes [0x41; 0x42; 0x1a; 0x1a]) /\
  receiveBlock 300 (sendBlock_frame 300 [0x41; 0x42; 0x1a; 0x1a] Crc) 4 Crc
  = ([SocketWrite [ACK]], Accepted [0x41; 0x42; 0x1a; 0x1a]).
Proof.
  assert (H : 0 <= 300 /\ bytes [0x41; 0x42; 0x1a; 0x1a])
    by (split; [lia | repeat constructor; unfold is_byte; lia]).
  split; [exact H|].
  exact (receiveBlock_sendBlock_roundtrip 300 [0x41; 0x42; 0x1a; 0x1a] Crc
           (proj1 H) (proj2 H)).
Defined.

(** C7. Block number 256 is written as sequence byte 0x00 with complement
    byte 0xFF, whatever the payload and the mode; and the decoder expecting
    block 256 accepts that frame: the byte it compares with is
    [256 % 0x100 = 0], and [0x00 + 0xFF = 0xFF]. In general the two header
    bytes are the block number modulo 256 and 255 minus it. *)
Theorem sequence_number_wraps_at_256 (payload : list Z) (mode : op_mode) :
  bytes payload ->
  take 3 (sendBlock_frame 256 payload mode) = [SOH; 0x00; 0xFF]
  /\ receiveBlock 256 (sendBlock_frame 256 payload mode)
       (Z.of_nat (length payload)) mode
     = ([SocketWrite [ACK]], Accepted payload)
  /\ (forall blockNr,
        take 3 (sendBlock_frame blockNr payload mode)
        = [SOH; blockNr mod 256; 0xff - blockNr mod 256]).
Proof.
  intros Hb. split; [|split].
  - by destruct mode.
  - apply receiveBlock_accepts_sendBlock_frame; [lia|done].
  - intros blockNr. pose proof (to_uint8_complement blockNr) as Hc.
    unfold to_uint8 in Hc.
    replace (0xff - blockNr mod 256) with ((0xff - blockNr) mod 256) by lia.
    by destruct mode.
Qed.

Lemma sequence_number_wraps_at_256_witness :
  bytes [0x41; 0x42] /\
  take 3 (sendBlock_frame 256 [0x41; 0x42] Normal) = [SOH; 0x00; 0xFF] /\
  receiveBlock 256 (sendBlock_frame 256 [0x41; 0x42] Normal) 2 Normal
  = ([SocketWrite [ACK]], Accepted [0x41; 0x42]).
Proof.
  assert (H : bytes [0x41; 0x42])
    by (repeat constructor; unfold is_byte; lia).
  split; [exact H|].
  pose proof (sequence_number_wraps_at_256 [0x41; 0x42] Normal H)
    as (H1 & H2 & _).
  split; [exact H1 | exact H2].
Defined.

(** C8. The decoder writes NAK exactly when the frame is rejected as
    [Corrupt] (first byte SOH, second and third bytes not adding up to
    0xFF) or as [SizeMismatch] (valid header, payload not of the block
    size); on [NotData] (first byte not SOH) and on [OutOfSync] (complement
    holds, sequence byte not [blockNr % 0x100]) it writes nothing. *)
Theorem receiveBlock_nak_iff
    (blockNr : Z) (blockData : list Z) (bs : Z) (mode : op_mode) :
  let written := fst (receiveBlock blockNr blockData bs mode) in
  let result := snd (receiveBlock blockNr blockData bs mode) in
  let soh := strict_eq (at_index blockData 0) SOH in
  let complement :=
    sum_eq (at_index blockData 1) (at_index blockData 2) 0xff in
  let in_sync := strict_eq (at_index blockData 1) (Z.rem blockNr 0x100) in
  let size_ok :=
    Z.of_nat (length (buffer_slice blockData 3
                        (Z.of_nat (length blockData) - checksum_length mode)))
    =? bs in
  (In (SocketWrite [NAK]) written <-> result = Corrupt \/ result = SizeMismatch)
  /\ (result = NotData \/ result = OutOfSync -> written = [])
  /\ (result = NotData <-> soh = false)
  /\ (result = Corrupt <-> soh = true /\ complement = false)
  /\ (result = OutOfSync <->
        soh = true /\ complement = true /\ in_sync = false)
  /\ (result = SizeMismatch <->
        soh = true /\ complement = true /\ in_sync = true /\ size_ok = false).
Proof.
  unfold receiveBlock, parseInt. cbv zeta.
  destruct (strict_eq (at_index blockData 0) SOH);
    destruct (sum_eq (at_index blockData 1) (at_index blockData 2) 255);
    destruct (strict_eq (at_index blockData 1) (Z.rem blockNr 256));
    destruct (_ =? bs);
    cbn [fst snd In];
    repeat split; intros; destruct_and?; destruct_or?;
      try congruence; try done; auto.
Qed.

(** ** The receiver's handler *)

Section ReceiverHandler.

Import Receiver.

Lemma receiveData_valid_header cfg kind st s c payload trailer :
  tryCounter st + 1 <= XMODEM_MAX_ERRORS cfg ->
  s + c = 0xff ->
  s = Z.rem (blockNumber st) 0x100 ->
  Z.of_nat (length payload) = block_size cfg ->
  Z.of_nat (length trailer) = checksum_length (XMODEM_OP_MODE st) ->
  receiveData cfg kind st (SOH :: s :: c :: payload ++ trailer)
  = ((if transfer_initiated st then [] else [ClearInterval])
       ++ [SocketWrite [ACK]],
     Some (Vars (blockNumber st + 1)
             (packagedBuffer st ++ [Block payload]) true 0
             (XMODEM_OP_MODE st))).
Proof.
  intros Htry Hsum Hseq Hlen Htr. unfold receiveData.
  rewrite at_index_0.
  change (strict_eq (Some SOH) NAK) with false.
  change (strict_eq (Some SOH) SOH) with true.
  cbn [andb blockNumber packagedBuffer transfer_initiated tryCounter
       XMODEM_OP_MODE].
  rewrite (proj2 (Z.leb_le _ _) Htry).
  unfold initiate.
  cbn [blockNumber packagedBuffer transfer_initiated tryCounter
       XMODEM_OP_MODE].
  destruct (transfer_initiated st); cbn [negb bind ret tell];
    cbn [blockNumber packagedBuffer transfer_initiated tryCounter
         XMODEM_OP_MODE];
    rewrite (receiveBlock_accepts _ _ _ _ _ _ _ Hsum Hseq Htr Hlen);
    reflexivity.
Qed.

(** C1, as the program has it. A frame in the receiving state with a valid
    header (SOH, complement, expected sequence number, payload of the block
    size) is accepted whatever its trailer bytes are: the receiver writes
    ACK and appends the payload. The trailer is cut off by its width and is
    compared with nothing. *)
Theorem valid_header_accepted_whatever_trailer
    (cfg : config) (kind : transport) (st : vars)
    (s c : Z) (payload trailer trailer' : list Z) :
  tryCounter st + 1 <= XMODEM_MAX_ERRORS cfg ->
  s + c = 0xff ->
  s = Z.rem (blockNumber st) 0x100 ->
  Z.of_nat (length payload) = block_size cfg ->
  Z.of_nat (length trailer) = checksum_length (XMODEM_OP_MODE st) ->
  Z.of_nat (length trailer') = checksum_length (XMODEM_OP_MODE st) ->
  receiveData cfg kind st (SOH :: s :: c :: payload ++ trailer)
  = receiveData cfg kind st (SOH :: s :: c :: payload ++ trailer')
  /\ socket_writes
       (fst (receiveData cfg kind st (SOH :: s :: c :: payload ++ trailer)))
     = [[ACK]]
  /\ snd (receiveData cfg kind st (SOH :: s :: c :: payload ++ trailer))
     = Some (Vars (blockNumber st + 1)
               (packagedBuffer st ++ [Block payload]) true 0
               (XMODEM_OP_MODE st)).
Proof.
  intros Htry Hsum Hseq Hlen Htr Htr'.
  rewrite !receiveData_valid_header by done.
  repeat split. by destruct (transfer_initiated st).
Qed.

Lemma valid_header_accepted_whatever_trailer_witness :
  let st := Vars 1 [Placeholder] false 0 Crc in
  let payload := replicate 128 0x41 in
  socket_writes
    (fst (receiveData default_config NetSocket st
            (SOH :: 1 :: 254 :: payload ++ [0xde; 0xad])))
  = [[ACK]]
  /\ snd (receiveData default_config NetSocket st
            (SOH :: 1 :: 254 :: payload ++ [0xde; 0xad]))
     = Some (Vars 2 [Placeholder; Block payload] true 0 Crc).
Proof.
  pose proof (valid_header_accepted_whatever_trailer default_config NetSocket
                (Vars 1 [Placeholder] false 0 Crc) 1 254
                (replicate 128 0x41) [0xde; 0xad] [0xbe; 0xef]) as H.
  cbn [tryCounter blockNumber XMODEM_OP_MODE default_config
       XMODEM_MAX_ERRORS block_size checksum_length] in H.
  destruct H as (_ & Hw & Hs); [lia | lia | reflexivity | reflexivity
                               | reflexivity | reflexivity |].
  split; [exact Hw | exact Hs].
Defined.

(** C1, as stated, fails: with the default configuration, in checksum
    mode, block 1 with 128 bytes 0x41 has checksum 0x80; the same frame
    with trailer 0x00 is answered with ACK and its payload is appended. *)
Lemma corrupted_trailer_is_accepted :
  let payload := replicate 128 0x41 in
  let st := Vars 1 [Placeholder] false 0 Normal in
  let out :=
    receiveData default_config NetSocket st
      ([SOH; 1; 254] ++ payload ++ [0x00]) in
  expected_trailer Normal payload = [0x80]
  /\ [0x00] <> expected_trailer Normal payload
  /\ In (SocketWrite [ACK]) (fst out)
  /\ snd out = Some (Vars 2 [Placeholder; Block payload] true 0 Normal).
Proof.
  assert (He : expected_trailer Normal (replicate 128 0x41) = [0x80])
    by (vm_compute; reflexivity).
  cbv zeta. rewrite He. split; [done|]. split; [discriminate|].
  split; [vm_compute; auto | vm_compute; reflexivity].
Qed.

(** *** Rejected frames and the error budget *)

Lemma rejected_receiveBlock blockNr bs mode frame :
  rejected blockNr bs mode frame ->
  strict_eq (at_index frame 0) SOH = true
  /\ fst (receiveBlock blockNr frame bs mode) = [SocketWrite [NAK]]
  /\ forall p, snd (receiveBlock blockNr frame bs mode) <> Accepted p.
Proof.
  unfold rejected, receiveBlock, parseInt. cbv zeta.
  destruct (_ =? bs);
    destruct (strict_eq (at_index frame 0) SOH);
    destruct (sum_eq (at_index frame 1) (at_index frame 2) 255);
    destruct (strict_eq (at_index frame 1) (Z.rem blockNr 256));
    cbn [fst snd]; intros [?|?]; try discriminate; by repeat split.
Qed.

(** What the handler does with a rejected frame: NAK while the counter is
    within the budget, nothing at all once it is beyond. *)
Lemma receiveData_rejected cfg kind st frame :
  rejected (blockNumber st) (block_size cfg) (XMODEM_OP_MODE st) frame ->
  receiveData cfg kind st frame =
  if tryCounter st + 1 <=? XMODEM_MAX_ERRORS cfg
  then ((if transfer_initiated st then [] else [ClearInterval])
          ++ [SocketWrite [NAK]],
        Some (Vars (blockNumber st) (packagedBuffer st) true
                (tryCounter st + 1) (XMODEM_OP_MODE st)))
  else ([],
        Some (Vars (blockNumber st) (packagedBuffer st)
                (transfer_initiated st) (tryCounter st + 1)
                (XMODEM_OP_MODE st))).
Proof.
  intros Hrej. apply rejected_receiveBlock in Hrej as (Hsoh & Hw & Hres).
  unfold receiveData.
  cbn [blockNumber packagedBuffer transfer_initiated tryCounter
       XMODEM_OP_MODE].
  destruct (at_index frame 0) as [b|] eqn:Hb; [|discriminate].
  cbn [strict_eq] in Hsoh. apply Z.eqb_eq in Hsoh as ->.
  change (strict_eq (Some SOH) NAK) with false.
  change (strict_eq (Some SOH) SOH) with true.
  change (strict_eq (Some SOH) EOT) with false.
  cbn [andb].
  destruct (tryCounter st + 1 <=? XMODEM_MAX_ERRORS cfg); [|reflexivity].
  unfold initiate.
  cbn [blockNumber packagedBuffer transfer_initiated tryCounter
       XMODEM_OP_MODE].
  destruct (transfer_initiated st); cbn [negb bind ret tell];
    cbn [blockNumber packagedBuffer transfer_initiated tryCounter
         XMODEM_OP_MODE];
    destruct (receiveBlock (blockNumber st) frame (block_size cfg)
                (XMODEM_OP_MODE st)) as [written result];
    cbn [fst snd] in Hw, Hres; subst written;
    destruct result; try reflexivity; by destruct (Hres current_block).
Qed.

(** A run of rejected frames from a counter [tryCounter st]: the NAKs stop
    when the budget is used up, and nothing else happens. *)
Lemma deliver_rejected cfg kind frames : forall st,
  Forall (rejected (blockNumber st) (block_size cfg) (XMODEM_OP_MODE st))
    frames ->
  let naks :=
    Z.to_nat (Z.min (Z.of_nat (length frames))
                (XMODEM_MAX_ERRORS cfg - tryCounter st)) in
  deliver (receiveData cfg kind) st frames =
  ((if transfer_initiated st || (naks =? 0)%nat then [] else [ClearInterval])
     ++ replicate naks (SocketWrite [NAK]),
   Some (Vars (blockNumber st) (packagedBuffer st)
           (transfer_initiated st || negb (naks =? 0)%nat)
           (tryCounter st + Z.of_nat (length frames))
           (XMODEM_OP_MODE st))).
Proof.
  induction frames as [|f fs IH]; intros st Hall naks.
  - subst naks. cbn [length deliver ret].
    replace (Z.to_nat _) with 0%nat by lia.
    cbn [Nat.eqb replicate negb]. rewrite !orb_true_r, !orb_false_r.
    rewrite Z.add_0_r. by destruct st.
  - apply Forall_cons in Hall as [Hf Hfs].
    cbn [deliver]. rewrite (receiveData_rejected _ _ _ _ Hf).
    destruct (Z.leb_spec (tryCounter st + 1) (XMODEM_MAX_ERRORS cfg))
      as [Hle|Hgt].
    + assert (Hnr : existsb is_remove_listener
                      ((if transfer_initiated st then [] else [ClearInterval])
                         ++ [SocketWrite [NAK]]) = false)
        by (by destruct (transfer_initiated st)).
      rewrite Hnr.
      rewrite IH by done.
      cbn [blockNumber packagedBuffer transfer_initiated tryCounter
           XMODEM_OP_MODE orb app].
      assert (Hn : naks =
                (S (Z.to_nat (Z.min (Z.of_nat (length fs))
                          (XMODEM_MAX_ERRORS cfg - (tryCounter st + 1))))))
        by (subst naks; cbn [length]; lia).
      rewrite Hn. cbn [Nat.eqb negb replicate].
      rewrite !orb_false_r, !orb_true_r.
      f_equal; [|do 2 f_equal; cbn [length]; lia].
      rewrite <- app_assoc. reflexivity.
    + cbn [existsb].
      rewrite IH by done.
      cbn [blockNumber packagedBuffer transfer_initiated tryCounter
           XMODEM_OP_MODE app].
      assert (Hn : naks = 0%nat) by (subst naks; lia).
      rewrite Hn.
      replace (Z.to_nat _) with 0%nat by lia.
      cbn [Nat.eqb negb replicate]. rewrite !orb_true_r, !orb_false_r.
      f_equal. do 2 f_equal. cbn [length]. lia.
Qed.

Lemma socket_writes_app t1 t2 :
  socket_writes (t1 ++ t2) = socket_writes t1 ++ socket_writes t2.
Proof. apply omap_app. Qed.

Lemma socket_writes_naks n :
  socket_writes (replicate n (SocketWrite [NAK])) = replicate n [NAK].
Proof. induction n as [|n IH]; [done|]. cbn. by f_equal. Qed.

Lemma existsb_naks (f : effect -> bool) n :
  f (SocketWrite [NAK]) = false ->
  existsb f (replicate n (SocketWrite [NAK])) = false.
Proof. intros Hf. induction n as [|n IH]; [done|]. cbn. by rewrite Hf, IH. Qed.

(** C3, as the program has it. Fed [XMODEM_MAX_ERRORS + 1] consecutive
    rejected frames for the block it expects, starting from a counter of
    zero, the receiver answers the first [XMODEM_MAX_ERRORS] with NAK and
    ignores the last one. It returns normally, emits no event, throws
    nothing, leaves the transport and its listener alone (so no outcome is
    reported), does not call the storage writer, and still expects the same
    block. *)
Theorem rejected_beyond_budget_are_ignored
    (cfg : config) (kind : transport) (st : vars) (frames : list (list Z)) :
  0 <= XMODEM_MAX_ERRORS cfg ->
  tryCounter st = 0 ->
  Z.of_nat (length frames) = XMODEM_MAX_ERRORS cfg + 1 ->
  Forall (rejected (blockNumber st) (block_size cfg) (XMODEM_OP_MODE st))
    frames ->
  exists t st',
    deliver (receiveData cfg kind) st frames = (t, Some st')
    /\ socket_writes t
       = replicate (Z.to_nat (XMODEM_MAX_ERRORS cfg)) [NAK]
    /\ existsb is_emit t = false
    /\ existsb is_write_file t = false
    /\ existsb is_teardown t = false
    /\ existsb is_remove_listener t = false
    /\ blockNumber st' = blockNumber st
    /\ packagedBuffer st' = packagedBuffer st
    /\ tryCounter st' = XMODEM_MAX_ERRORS cfg + 1.
Proof.
  intros Hmax Htry Hlen Hall.
  pose proof (deliver_rejected cfg kind frames st Hall) as Hrun.
  cbv zeta in Hrun. rewrite Htry, Hlen in Hrun.
  replace (Z.min _ _) with (XMODEM_MAX_ERRORS cfg) in Hrun by lia.
  eexists _, _. split; [exact Hrun|].
  cbn [blockNumber packagedBuffer tryCounter].
  rewrite socket_writes_app, socket_writes_naks, !existsb_app,
    !existsb_naks by done.
  repeat split; try lia;
    by destruct (transfer_initiated st), (_ =? _)%nat.
Qed.

Lemma rejected_beyond_budget_are_ignored_witness :
  exists t st',
    deliver (receiveData default_config NetSocket)
      (Vars 1 [Placeholder] false 0 Crc) (replicate 11 [SOH; 1; 1])
    = (t, Some st')
    /\ socket_writes t = replicate 10 [NAK]
    /\ existsb is_emit t = false
    /\ existsb is_write_file t = false
    /\ existsb is_teardown t = false
    /\ existsb is_remove_listener t = false
    /\ blockNumber st' = 1
    /\ packagedBuffer st' = [Placeholder]
    /\ tryCounter st' = 11.
Proof.
  apply (rejected_beyond_budget_are_ignored default_config NetSocket
           (Vars 1 [Placeholder] false 0 Crc) (replicate 11 [SOH; 1; 1]));
    [cbn; lia | reflexivity | reflexivity |].
  repeat constructor.
Defined.

(** C3, as stated, fails: with the default configuration eleven frames
    whose complement byte is wrong yield ten NAKs and nothing else. The
    handler returns normally with its listener attached, no event is
    emitted, and an EOT that follows is still acknowledged and makes the
    storage writer run. *)
Lemma exhausted_retries_not_reported :
  let st := Vars 1 [Placeholder] false 0 Crc in
  let corrupt := [SOH; 1; 1] in
  Forall (rejected 1 128 Crc) (replicate 11 corrupt)
  /\ deliver (receiveData default_config NetSocket) st (replicate 11 corrupt)
     = (ClearInterval :: replicate 10 (SocketWrite [NAK]),
        Some (Vars 1 [Placeholder] true 11 Crc))
  /\ existsb is_emit
       (fst (deliver (receiveData default_config NetSocket) st
               (replicate 11 corrupt))) = false
  /\ deliver (receiveData default_config NetSocket) st
       (replicate 11 corrupt ++ [[EOT]])
     = (ClearInterval :: replicate 10 (SocketWrite [NAK])
          ++ [SocketWrite [ACK]; WriteFile [Placeholder]; SocketDestroy;
              RemoveListener],
        Some (Vars 0 [Placeholder] true 12 Crc)).
Proof.
  cbv zeta. split; [repeat constructor|].
  split; [vm_compute; reflexivity|].
  split; vm_compute; reflexivity.
Qed.

(** *** End of transmission *)

Lemma trim_scan_all_filler data : forall k,
  (k <= length data)%nat ->
  Forall (fun b => b = FILLER) data ->
  trim_scan data k = None.
Proof.
  intros k Hk Hall. induction k as [|i IH]; [done|]. cbn [trim_scan].
  destruct (lookup_lt_is_Some_2 data i ltac:(lia)) as [b Hb].
  rewrite Hb. rewrite Forall_lookup in Hall. rewrite (Hall _ _ Hb).
  cbn [strict_eq]. rewrite Z.eqb_refl. apply IH. lia.
Qed.

Lemma buffer_slice_prefix {A} (l1 l2 : list A) :
  buffer_slice (l1 ++ l2) 0 (Z.of_nat (length l1)) = l1.
Proof.
  unfold buffer_slice, clamp_index. rewrite length_app.
  destruct (Z.ltb_spec 0 0) as [?|_]; [lia|].
  destruct (Z.ltb_spec (Z.of_nat (length l1)) 0) as [?|_]; [lia|].
  rewrite !Z.min_l by lia. cbn [Z.to_nat drop].
  replace (Z.to_nat _) with (length l1) by lia.
  apply take_app_length.
Qed.

(** The scan cuts the chunk right after its last byte that is not the
    filler. *)
Lemma trim_scan_last_data pre b n :
  b <> FILLER ->
  trim_scan (pre ++ b :: replicate n FILLER)
    (length (pre ++ b :: replicate n FILLER))
  = Some (pre ++ [b]).
Proof.
  intros Hb.
  assert (Hsplit : pre ++ b :: replicate n FILLER
                   = (pre ++ [b]) ++ replicate n FILLER)
    by (by rewrite <- app_assoc).
  assert (Hlen : length (pre ++ [b]) = S (length pre))
    by (rewrite length_app; cbn [length]; lia).
  assert (H : forall k, (k <= n)%nat ->
            trim_scan (pre ++ b :: replicate n FILLER) (S (length pre) + k)
            = Some (pre ++ [b])).
  { induction k as [|k IH]; intros Hk.
    - rewrite Nat.add_0_r. cbn [trim_scan].
      rewrite lookup_app_r by lia. rewrite Nat.sub_diag.
      cbn [lookup list_lookup strict_eq].
      rewrite (proj2 (Z.eqb_neq _ _) Hb), Hsplit.
      replace (Z.of_nat (length pre) + 1) with (Z.of_nat (length (pre ++ [b])))
        by lia.
      by rewrite buffer_slice_prefix.
    - replace (S (length pre) + S k)%nat with (S (S (length pre) + k)) by lia.
      cbn [trim_scan].
      rewrite Hsplit at 1. rewrite lookup_app_r by lia.
      rewrite lookup_replicate_2 by lia. cbn [strict_eq].
      rewrite Z.eqb_refl. apply IH. lia. }
  rewrite length_app. cbn [length]. rewrite length_replicate.
  replace (length pre + S n)%nat with (S (length pre) + n)%nat by lia.
  by apply H.
Qed.

Lemma trim_last_all_filler packagedBuffer i data :
  Forall (fun b => b = FILLER) data ->
  trim_last packagedBuffer i (Block data) = packagedBuffer.
Proof.
  intros Hall. unfold trim_last.
  by rewrite trim_scan_all_filler.
Qed.

Lemma trim_last_data packagedBuffer i pre b n :
  b <> FILLER ->
  trim_last packagedBuffer i (Block (pre ++ b :: replicate n FILLER))
  = <[Z.to_nat i := Block (pre ++ [b])]> packagedBuffer.
Proof.
  intros Hb. unfold trim_last. by rewrite trim_scan_last_data.
Qed.

(** The trace of the callback given to [writeFile]. *)
Lemma finish_trace kind :
  finish kind =
  (match kind with
   | NetSocket => [SocketDestroy]
   | SerialPort => [SocketClose]
   | OtherTransport => []
   end ++ [RemoveListener], Some tt).
Proof. by destruct kind. Qed.

(** The handler on EOT, when [packagedBuffer[blockNumber - 1]] exists. *)
Lemma receiveData_eot cfg kind st rest last :
  at_index (packagedBuffer st) (blockNumber st - 1) = Some last ->
  receiveData cfg kind st (EOT :: rest) =
  ([SocketWrite [ACK];
    WriteFile (trim_last (packagedBuffer st) (blockNumber st - 1) last)]
     ++ fst (finish kind),
   Some (Vars (blockNumber st - 1)
           (trim_last (packagedBuffer st) (blockNumber st - 1) last)
           (transfer_initiated st) (tryCounter st + 1) (XMODEM_OP_MODE st))).
Proof.
  intros Hlast. unfold receiveData. rewrite at_index_0.
  change (strict_eq (Some EOT) NAK) with false.
  change (strict_eq (Some EOT) SOH) with false.
  change (strict_eq (Some EOT) EOT) with true.
  cbn [andb blockNumber packagedBuffer transfer_initiated tryCounter
       XMODEM_OP_MODE].
  rewrite Hlast. unfold writeFile. rewrite finish_trace.
  by destruct kind.
Qed.

(** The first example of C4: the chunk [0x41, 0x42, 0x1A, 0x1A] is cut to
    [0x41, 0x42]. *)
Lemma trim_last_example :
  trim_last [Placeholder; Block [0x41; 0x42; 0x1a; 0x1a]] 1
    (Block [0x41; 0x42; 0x1a; 0x1a])
  = [Placeholder; Block [0x41; 0x42]].
Proof. reflexivity. Qed.

(** C4, where the program departs from it. With the default configuration
    the receiver accepts block 1 made of 128 filler bytes and then gets
    EOT: the scan runs through the whole chunk without finding a byte to
    stop at, nothing is assigned, and the chunk handed to the storage
    writer still has its 128 filler bytes; it has not become empty. *)
Theorem all_filler_final_chunk_is_kept :
  let filler_block := replicate 128 FILLER in
  let st := Vars 1 [Placeholder] false 0 Normal in
  trim_scan filler_block (length filler_block) = None
  /\ deliver (receiveData default_config NetSocket) st
       [sendBlock_frame 1 filler_block Normal; [EOT]]
     = ([ClearInterval; SocketWrite [ACK]; SocketWrite [ACK];
         WriteFile [Placeholder; Block filler_block];
         SocketDestroy; RemoveListener],
        Some (Vars 1 [Placeholder; Block filler_block] true 1 Normal))
  /\ file_bytes [Placeholder; Block filler_block] = filler_block.
Proof.
  cbv zeta. split; [vm_compute; reflexivity|].
  split; vm_compute; reflexivity.
Qed.

(** C10. EOT while no block has been accepted (the expected block is the
    start block and the buffer holds only the placeholders before it, the
    single index-0 placeholder by default), on a transport of one of the
    two kinds the program knows: the handler writes ACK, calls the storage
    writer with the buffer of placeholders, which puts no byte in the file,
    destroys or closes the transport, removes its listener, and returns
    normally without emitting anything. *)
Theorem eot_before_any_block
    (cfg : config) (kind : transport) (st : vars) (rest : list Z) :
  1 <= XMODEM_START_BLOCK cfg ->
  kind <> OtherTransport ->
  blockNumber st = XMODEM_START_BLOCK cfg ->
  packagedBuffer st
  = replicate (Z.to_nat (XMODEM_START_BLOCK cfg)) Placeholder ->
  receiveData cfg kind st (EOT :: rest) =
  ([SocketWrite [ACK];
    WriteFile (replicate (Z.to_nat (XMODEM_START_BLOCK cfg)) Placeholder);
    match kind with SerialPort => SocketClose | _ => SocketDestroy end;
    RemoveListener],
   Some (Vars (XMODEM_START_BLOCK cfg - 1)
           (replicate (Z.to_nat (XMODEM_START_BLOCK cfg)) Placeholder)
           (transfer_initiated st) (tryCounter st + 1) (XMODEM_OP_MODE st)))
  /\ file_bytes (replicate (Z.to_nat (XMODEM_START_BLOCK cfg)) Placeholder)
     = [].
Proof.
  intros Hstart Hkind Hbn Hpb. split.
  - rewrite (receiveData_eot cfg kind st rest Placeholder).
    + rewrite Hbn, Hpb. cbn [trim_last]. rewrite finish_trace.
      by destruct kind.
    + rewrite Hbn, Hpb. unfold at_index.
      destruct (Z.ltb_spec (XMODEM_START_BLOCK cfg - 1) 0) as [?|_]; [lia|].
      apply lookup_replicate_2. lia.
  - generalize (Z.to_nat (XMODEM_START_BLOCK cfg)).
    intros n. induction n as [|n IH]; [done|]. exact IH.
Qed.

Lemma eot_before_any_block_witness :
  receiveData default_config SerialPort (Vars 1 [Placeholder] false 0 Crc)
    [EOT]
  = ([SocketWrite [ACK]; WriteFile [Placeholder]; SocketClose;
      RemoveListener],
     Some (Vars 0 [Placeholder] false 1 Crc))
  /\ file_bytes [Placeholder] = [].
Proof.
  apply (eot_before_any_block default_config SerialPort
           (Vars 1 [Placeholder] false 0 Crc) []);
    [cbn; lia | discriminate | reflexivity | reflexivity].
Defined.

(** With a start block of 0 there is no placeholder, and the same EOT makes
    the handler throw after the ACK: [packagedBuffer[-1]] is undefined. *)
Remark eot_with_start_block_zero_throws :
  receiveData (Config 0 5 10 3 10 128) NetSocket (Vars 0 [] false 0 Crc) [EOT]
  = ([SocketWrite [ACK]], None).
Proof. reflexivity. Qed.

End ReceiverHandler.

(** ** The sender's handler *)

Section SenderHandler.

Import Sender.

Lemma length_buffer_slice_rest {A} (buf : list A) (bs : Z) :
  0 < bs ->
  length (buffer_slice buf bs (Z.of_nat (length buf)))
  = (length buf - Z.to_nat bs)%nat.
Proof.
  intros Hbs. unfold buffer_slice, clamp_index.
  destruct (Z.ltb_spec bs 0) as [?|_]; [lia|].
  destruct (Z.ltb_spec (Z.of_nat (length buf)) 0) as [?|_]; [lia|].
  rewrite length_take, length_drop. lia.
Qed.

(** The fuel [send] gives the packaging loop is enough: with a positive
    block size, more fuel changes nothing. *)
Lemma package_fuel_enough bs : forall fuel fuel' dataBuffer,
  0 < bs ->
  (length dataBuffer <= fuel)%nat ->
  (length dataBuffer <= fuel')%nat ->
  package fuel bs dataBuffer = package fuel' bs dataBuffer.
Proof.
  induction fuel as [|fuel IH]; intros fuel' d Hbs Hf Hf'.
  - destruct d; [|cbn in Hf; lia]. by destruct fuel'.
  - destruct fuel' as [|fuel'].
    + destruct d; [done | cbn in Hf'; lia].
    + cbn [package].
      destruct (Z.ltb_spec 0 (Z.of_nat (length d))) as [Hlen|_]; [|done].
      f_equal. apply IH; [done | |];
        rewrite length_buffer_slice_rest by done; lia.
Qed.

(** A payload of 300 bytes with the default block size is packaged in three
    blocks of 128 bytes, the last one padded with the filler byte. *)
Example package_300_bytes :
  package 300 128 (replicate 300 0x41)
  = [Block (replicate 128 0x41); Block (replicate 128 0x41);
     Block (replicate 44 0x41 ++ replicate 84 FILLER)].
Proof. vm_compute. reflexivity. Qed.

Lemma package_blocks fuel bs : forall dataBuffer c,
  In c (package fuel bs dataBuffer) -> exists payload, c = Block payload.
Proof.
  induction fuel as [|fuel IH]; intros d c; cbn [package]; [done|].
  destruct (0 <? Z.of_nat (length d)); [|done].
  intros [<-|Hin]; [by eexists | by eapply IH].
Qed.

Lemma send_inv cfg mode dataBuffer t st :
  0 <= XMODEM_START_BLOCK cfg ->
  send cfg mode dataBuffer = (t, Some st) ->
  sender_inv cfg st.
Proof.
  intros Hstart Hsend. unfold send in Hsend. cbn in Hsend.
  injection Hsend as _ <-.
  unfold sender_inv. cbn [blockNumber packagedBuffer sent_eof].
  rewrite length_app, length_replicate.
  split; [lia|]. split; [done|].
  intros i Hi. unfold at_index.
  destruct (Z.ltb_spec i 0) as [?|_]; [lia|].
  rewrite lookup_app_r by (rewrite length_replicate; lia).
  rewrite length_replicate.
  destruct (lookup_lt_is_Some_2 (package (length dataBuffer) (block_size cfg)
                                   dataBuffer)
              (Z.to_nat i - Z.to_nat (XMODEM_START_BLOCK cfg)) ltac:(lia))
    as [c Hc].
  rewrite Hc.
  apply list_elem_of_lookup_2, list_elem_of_In, package_blocks in Hc as [p ->].
  by eexists.
Qed.

Lemma transmit_block st payload :
  at_index (packagedBuffer st) (blockNumber st) = Some (Block payload) ->
  transmit st =
  ([SocketWrite (sendBlock_frame (blockNumber st) payload (XMODEM_OP_MODE st));
    Emit (Status ActSend SigSOH (Some (blockNumber st)))],
   Some (set_blockNumber st (blockNumber st + 1))).
Proof. intros Hb. unfold transmit. by rewrite Hb. Qed.

Lemma last_write_app_writes t t' w :
  last_write t' = Some w -> last_write (t ++ t') = Some w.
Proof.
  unfold last_write. rewrite socket_writes_app.
  intros H. rewrite last_app, H. done.
Qed.

Lemma last_write_app_silent t t' :
  socket_writes t' = [] -> last_write (t ++ t') = last_write t.
Proof.
  unfold last_write. rewrite socket_writes_app.
  intros ->. by rewrite app_nil_r.
Qed.

Lemma in_flight_block st payload :
  sent_eof st = false ->
  at_index (packagedBuffer st) (blockNumber st - 1) = Some (Block payload) ->
  in_flight st
  = sendBlock_frame (blockNumber st - 1) payload (XMODEM_OP_MODE st).
Proof. intros He Hb. unfold in_flight. by rewrite He, Hb. Qed.

(** NAK past the start block leaves the closure variables as they are and
    writes again what is in flight. *)
Lemma sendData_nak_past_start cfg st rest :
  sender_inv cfg st ->
  XMODEM_START_BLOCK cfg < blockNumber st ->
  sendData cfg st (NAK :: rest) = (nak_response st, Some st).
Proof.
  intros (Hrange & Heof & Hblocks) Hpast.
  unfold sendData, nak_response. rewrite at_index_0.
  change (strict_eq (Some NAK) CRC_MODE) with false.
  change (strict_eq (Some NAK) NAK) with true.
  change (strict_eq (Some NAK) ACK) with false.
  cbn [andb].
  rewrite (proj2 (Z.eqb_neq _ _)) by lia.
  rewrite Z.gtb_ltb, (proj2 (Z.ltb_lt _ _) Hpast).
  destruct (sent_eof st) eqn:He.
  - rewrite (proj2 (Z.eqb_eq _ _) (Heof eq_refl)). reflexivity.
  - rewrite andb_false_r.
    cbn [set_blockNumber blockNumber packagedBuffer].
    rewrite Z.gtb_ltb, (proj2 (Z.ltb_lt _ _)) by lia.
    destruct (Hblocks (blockNumber st - 1) ltac:(lia)) as [payload Hp].
    rewrite (transmit_block _ payload) by done.
    rewrite (in_flight_block st payload) by done.
    cbn [set_blockNumber blockNumber packagedBuffer sent_eof XMODEM_OP_MODE
         bind tell app].
    replace (blockNumber st - 1 + 1) with (blockNumber st) by lia.
    by destruct st.
Qed.

Lemma deliver_naks cfg st rest n :
  sender_inv cfg st ->
  XMODEM_START_BLOCK cfg < blockNumber st ->
  deliver (sendData cfg) st (replicate n (NAK :: rest))
  = (concat (replicate n (nak_response st)), Some st).
Proof.
  intros Hinv Hpast. induction n as [|n IH]; [done|].
  cbn [replicate deliver concat].
  rewrite sendData_nak_past_start, IH by done.
  assert (Hl : existsb is_remove_listener (nak_response st) = false)
    by (unfold nak_response; by destruct (sent_eof st)).
  by rewrite Hl.
Qed.

Lemma begin_step cfg st m t' st' :
  sender_inv cfg st ->
  blockNumber st = XMODEM_START_BLOCK cfg ->
  begin st m = (t', Some st') ->
  sender_inv cfg st'
  /\ (XMODEM_START_BLOCK cfg < blockNumber st' ->
      last_write t' = Some (in_flight st')).
Proof.
  intros (Hrange & Heof & Hblocks) Hat Hrun.
  unfold begin in Hrun. rewrite Z.gtb_ltb in Hrun.
  cbn [set_mode blockNumber packagedBuffer] in Hrun.
  destruct (Z.ltb_spec (blockNumber st)
              (Z.of_nat (length (packagedBuffer st)))) as [Hlt|Hge].
  - destruct (Hblocks (blockNumber st) ltac:(lia)) as [payload Hp].
    rewrite (transmit_block (set_mode st m) payload) in Hrun by done.
    injection Hrun as <- <-.
    unfold sender_inv, in_flight.
    cbn [set_mode set_blockNumber blockNumber packagedBuffer sent_eof
         XMODEM_OP_MODE].
    destruct (sent_eof st) eqn:He; [specialize (Heof eq_refl); lia|].
    replace (blockNumber st + 1 - 1) with (blockNumber st) by lia.
    rewrite Hp. repeat split; try lia; done.
  - injection Hrun as <- <-.
    unfold sender_inv.
    cbn [set_mode blockNumber packagedBuffer sent_eof].
    repeat split; try lia; done.
Qed.

Lemma strict_eq_first data c :
  strict_eq (at_index data 0) c = true -> exists rest, data = c :: rest.
Proof.
  destruct data as [|b rest]; [done|]. rewrite at_index_0. cbn [strict_eq].
  intros ->%Z.eqb_eq. by eexists.
Qed.

(** One inbound chunk keeps the invariant, and past the start block the
    handler either has just written what is now in flight, or has written
    nothing and changed nothing. *)
Lemma sendData_step cfg st data t' st' :
  0 <= XMODEM_START_BLOCK cfg ->
  sender_inv cfg st ->
  sendData cfg st data = (t', Some st') ->
  sender_inv cfg st'
  /\ (XMODEM_START_BLOCK cfg < blockNumber st' ->
      last_write t' = Some (in_flight st')
      \/ (socket_writes t' = [] /\ st' = st)).
Proof.
  intros Hstart Hinv Hrun. pose proof Hrun as Hrun0.
  pose proof Hinv as (Hrange & Heof & Hblocks).
  unfold sendData in Hrun. rewrite !Z.gtb_ltb in Hrun.
  destruct (strict_eq (at_index data 0) CRC_MODE
            && (blockNumber st =? XMODEM_START_BLOCK cfg)) eqn:E1.
  { apply andb_true_iff in E1 as [_ Hat%Z.eqb_eq].
    destruct (begin_step _ _ _ _ _ Hinv Hat Hrun) as [? ?]. auto. }
  destruct (strict_eq (at_index data 0) NAK
            && (blockNumber st =? XMODEM_START_BLOCK cfg)) eqn:E2.
  { apply andb_true_iff in E2 as [_ Hat%Z.eqb_eq].
    destruct (begin_step _ _ _ _ _ Hinv Hat Hrun) as [? ?]. auto. }
  destruct (strict_eq (at_index data 0) ACK
            && (XMODEM_START_BLOCK cfg <? blockNumber st)) eqn:E3.
  { apply andb_true_iff in E3 as [_ Hpast%Z.ltb_lt].
    destruct (Z.ltb_spec (blockNumber st)
                (Z.of_nat (length (packagedBuffer st)))) as [Hlt|Hge].
    - destruct (Hblocks (blockNumber st) ltac:(lia)) as [payload Hp].
      rewrite (transmit_block st payload) in Hrun by done.
      injection Hrun as <- <-.
      unfold sender_inv, in_flight.
      cbn [set_blockNumber blockNumber packagedBuffer sent_eof
           XMODEM_OP_MODE].
      destruct (sent_eof st) eqn:He; [specialize (Heof eq_refl); lia|].
      replace (blockNumber st + 1 - 1) with (blockNumber st) by lia.
      rewrite Hp. repeat split; try lia; try done. by left.
    - rewrite (proj2 (Z.eqb_eq (Z.of_nat (length (packagedBuffer st)))
                        (blockNumber st))) in Hrun by lia.
      destruct (sent_eof st) eqn:He; cbn [negb] in Hrun;
        injection Hrun as <- <-.
      + split; [done|]. intros _. by right.
      + unfold sender_inv, in_flight.
        cbn [set_sent_eof blockNumber packagedBuffer sent_eof].
        repeat split; try lia; try done. by left. }
  destruct (strict_eq (at_index data 0) NAK
            && (XMODEM_START_BLOCK cfg <? blockNumber st)) eqn:E4.
  { apply andb_true_iff in E4 as [[rest ->]%strict_eq_first Hpast%Z.ltb_lt].
    rewrite sendData_nak_past_start in Hrun0 by done.
    injection Hrun0 as <- <-. split; [done|]. intros _. left.
    unfold nak_response.
    destruct (sent_eof st) eqn:He; [|reflexivity].
    unfold in_flight. by rewrite He. }
  injection Hrun as <- <-. split; [done|]. intros _. by right.
Qed.

(** Every reachable state satisfies the invariant, and once the cursor is
    past the start block the last thing written to the socket is what is in
    flight. *)
Lemma sender_reaches_inv cfg mode dataBuffer t st :
  0 <= XMODEM_START_BLOCK cfg ->
  sender_reaches cfg mode dataBuffer t st ->
  sender_inv cfg st
  /\ (XMODEM_START_BLOCK cfg < blockNumber st ->
      last_write t = Some (in_flight st)).
Proof.
  intros Hstart Hreach.
  induction Hreach
    as [t st Hsend | t st data t' st' Hreach [IHinv IHlast] Hrun].
  - split; [by eapply send_inv|].
    unfold send in Hsend. cbn in Hsend. injection Hsend as _ <-.
    cbn [blockNumber]. lia.
  - destruct (sendData_step _ _ _ _ _ Hstart IHinv Hrun) as [Hinv' Hlast'].
    split; [done|]. intros Hpast.
    destruct (Hlast' Hpast) as [Hw | [Hsilent ->]].
    + by apply last_write_app_writes.
    + rewrite last_write_app_silent by done. by apply IHlast.
Qed.

(** C9. In a state the sender can reach, with the cursor past the start
    block, a chunk starting with NAK leaves the cursor, the queue, the EOT
    flag and the mode as they were, and writes again exactly what the
    sender wrote last: EOT when EOT has been sent; otherwise the frame of
    the block before the cursor, with the same sequence number, payload and
    mode (the cursor is decremented, the block sent, the cursor incremented
    again). So any number of NAKs in a row elicit the same frame each
    time. *)
Theorem nak_resends_what_is_in_flight
    (cfg : config) (mode : op_mode) (dataBuffer : list Z)
    (t : list effect) (st : vars) (rest : list Z) (n : nat) :
  0 <= XMODEM_START_BLOCK cfg ->
  sender_reaches cfg mode dataBuffer t st ->
  XMODEM_START_BLOCK cfg < blockNumber st ->
  last_write t = Some (in_flight st)
  /\ (if sent_eof st then in_flight st = [EOT]
      else exists payload,
          at_index (packagedBuffer st) (blockNumber st - 1)
          = Some (Block payload)
          /\ in_flight st
             = sendBlock_frame (blockNumber st - 1) payload
                 (XMODEM_OP_MODE st))
  /\ sendData cfg st (NAK :: rest) = (nak_response st, Some st)
  /\ socket_writes (nak_response st) = [in_flight st]
  /\ deliver (sendData cfg) st (replicate n (NAK :: rest))
     = (concat (replicate n (nak_response st)), Some st).
Proof.
  intros Hstart Hreach Hpast.
  destruct (sender_reaches_inv _ _ _ _ _ Hstart Hreach) as [Hinv Hlast].
  split; [by apply Hlast|].
  split.
  { destruct (sent_eof st) eqn:He.
    - unfold in_flight. by rewrite He.
    - destruct Hinv as (Hrange & _ & Hblocks).
      destruct (Hblocks (blockNumber st - 1) ltac:(lia)) as [payload Hp].
      exists payload. split; [done|]. by apply in_flight_block. }
  split; [by apply sendData_nak_past_start|].
  split; [|by apply deliver_naks].
  unfold nak_response.
  destruct (sent_eof st) eqn:He; [|reflexivity].
  unfold in_flight. by rewrite He.
Qed.

Lemma nak_resends_what_is_in_flight_witness :
  let cfg := Config 1 5 10 3 10 4 in
  let frame := sendBlock_frame 1 [0x41; 0x42; 0x43; FILLER] Crc in
  let st := Vars 2 [Placeholder; Block [0x41; 0x42; 0x43; FILLER]] false Crc in
  sendData cfg st [NAK] =
    ([Emit (Status ActRecv SigNAK None); SocketWrite frame;
      Emit (Status ActSend SigSOH (Some 1))], Some st)
  /\ deliver (sendData cfg) st (replicate 3 [NAK])
     = (concat (replicate 3
                  [Emit (Status ActRecv SigNAK None); SocketWrite frame;
                   Emit (Status ActSend SigSOH (Some 1))]), Some st).
Proof.
  assert (Hreach :
    sender_reaches (Config 1 5 10 3 10 4) Normal [0x41; 0x42; 0x43]
      ([Emit (Ready 1)]
         ++ [Emit (Start Crc);
             SocketWrite (sendBlock_frame 1 [0x41; 0x42; 0x43; FILLER] Crc);
             Emit (Status ActSend SigSOH (Some 1))])
      (Vars 2 [Placeholder; Block [0x41; 0x42; 0x43; FILLER]] false Crc)).
  { eapply (reaches_data _ _ _ _ _ [CRC_MODE]).
    - apply reaches_send. reflexivity.
    - reflexivity. }
  assert (Hstart : 0 <= XMODEM_START_BLOCK (Config 1 5 10 3 10 4))
    by (cbn; lia).
  assert (Hpast :
    XMODEM_START_BLOCK (Config 1 5 10 3 10 4)
    < blockNumber
        (Vars 2 [Placeholder; Block [0x41; 0x42; 0x43; FILLER]] false Crc))
    by (cbn; lia).
  pose proof (nak_resends_what_is_in_flight _ _ _ _ _ [] 3%nat
                Hstart Hreach Hpast)
    as (_ & _ & Hnak & _ & Hrun).
  split; [exact Hnak | exact Hrun].
Defined.

(** After EOT has been sent, NAK makes the sender write EOT again. *)
Example nak_after_eot :
  let cfg := Config 1 5 10 3 10 4 in
  let st := Vars 2 [Placeholder; Block [0x41; 0x42; 0x43; FILLER]] true Crc in
  deliver (sendData cfg) (Vars 1 (packagedBuffer st) false Normal)
    [[CRC_MODE]; [ACK]; [NAK]; [NAK]]
  = ([Emit (Start Crc);
      SocketWrite (sendBlock_frame 1 [0x41; 0x42; 0x43; FILLER] Crc);
      Emit (Status ActSend SigSOH (Some 1));
      Emit (Status ActRecv SigACK None);
      Emit (Status ActSend SigEOT None); SocketWrite [EOT];
      Emit (Status ActSend SigEOT None); SocketWrite [EOT];
      Emit (Status ActSend SigEOT None); SocketWrite [EOT]],
     Some st).
Proof. vm_compute. reflexivity. Qed.

End SenderHandler.

(** * Further properties *)

(** ** Packaging of the payload by [send] *)

Section Packaging.

Import Sender.

Lemma fill_block_take bs (d : list Z) :
  fill_block bs d
  = take (Z.to_nat bs) d ++ replicate (Z.to_nat bs - length d) FILLER.
Proof.
  unfold fill_block. generalize (Z.to_nat bs). intros n.
  apply list_eq. intros i.
  rewrite list_lookup_fmap.
  destruct (decide (i < n)%nat) as [Hi|Hi].
  - rewrite lookup_seq_lt by done. cbn [fmap option_fmap option_map Nat.add].
    destruct (decide (i < length d)%nat) as [Hd|Hd].
    + rewrite lookup_app_l by (rewrite length_take; lia).
      rewrite lookup_take_lt by done.
      destruct (lookup_lt_is_Some_2 d i Hd) as [b Hb]. by rewrite Hb.
    + rewrite lookup_app_r by (rewrite length_take; lia).
      rewrite length_take, lookup_replicate_2 by lia.
      by rewrite lookup_ge_None_2 by lia.
  - rewrite lookup_seq_ge by lia. cbn.
    symmetry. apply lookup_ge_None_2.
    rewrite length_app, length_take, length_replicate. lia.
Qed.

Lemma buffer_slice_drop {A} (d : list A) bs :
  0 <= bs ->
  buffer_slice d bs (Z.of_nat (length d)) = drop (Z.to_nat bs) d.
Proof.
  intros Hbs. unfold buffer_slice, clamp_index.
  destruct (Z.ltb_spec bs 0) as [?|_]; [lia|].
  destruct (Z.ltb_spec (Z.of_nat (length d)) 0) as [?|_]; [lia|].
  rewrite Z.min_id.
  destruct (Z.le_gt_cases bs (Z.of_nat (length d))) as [Hle|Hgt].
  - rewrite Z.min_l by lia. apply take_ge. rewrite length_drop. lia.
  - rewrite Z.min_r by lia. rewrite !drop_ge by lia. apply take_nil.
Qed.

Lemma package_nil fuel bs : package fuel bs [] = [].
Proof. by destruct fuel. Qed.

Lemma package_cons fuel bs (d : list Z) :
  0 <= bs -> d <> [] ->
  package (S fuel) bs d
  = Block (take (Z.to_nat bs) d ++ replicate (Z.to_nat bs - length d) FILLER)
      :: package fuel bs (drop (Z.to_nat bs) d).
Proof.
  intros Hbs Hd. cbn [package].
  destruct (Z.ltb_spec 0 (Z.of_nat (length d))) as [_|Hlen].
  - by rewrite fill_block_take, buffer_slice_drop.
  - destruct d; [done | cbn in Hlen; lia].
Qed.

Lemma padding_drop bs (d : list Z) :
  0 < bs -> (Z.to_nat bs <= length d)%nat ->
  padding bs (length (drop (Z.to_nat bs) d)) = padding bs (length d).
Proof.
  intros Hbs Hle. unfold padding. rewrite length_drop. f_equal.
  replace (- Z.of_nat (length d - Z.to_nat bs))
    with (- Z.of_nat (length d) + 1 * bs) by lia.
  apply Z_mod_plus_full.
Qed.

Lemma padding_short bs (d : list Z) :
  (0 < length d < Z.to_nat bs)%nat ->
  padding bs (length d) = (Z.to_nat bs - length d)%nat.
Proof.
  intros Hlen. unfold padding.
  rewrite <- (Z.mod_unique (- Z.of_nat (length d)) bs (-1)
                (bs - Z.of_nat (length d))); lia.
Qed.

Lemma padding_full bs (d : list Z) :
  0 < bs -> length d = Z.to_nat bs -> padding bs (length d) = 0%nat.
Proof.
  intros Hbs Hlen. unfold padding.
  rewrite <- (Z.mod_unique (- Z.of_nat (length d)) bs (-1) 0); lia.
Qed.

Lemma package_blocks_spec bs : forall fuel (d : list Z),
  0 < bs ->
  (length d <= fuel)%nat ->
  exists blocks,
    package fuel bs d = map Block blocks
    /\ concat blocks = d ++ replicate (padding bs (length d)) FILLER
    /\ Forall (fun p => length p = Z.to_nat bs) blocks.
Proof.
  induction fuel as [|fuel IH]; intros d Hbs Hfuel.
  { destruct d; [|cbn in Hfuel; lia]. exists []. by repeat split. }
  destruct (decide (d = [])) as [->|Hd].
  { exists []. by repeat split. }
  assert (Hpos : (0 < length d)%nat) by (destruct d; [done | cbn; lia]).
  rewrite package_cons by (done || lia).
  destruct (IH (drop (Z.to_nat bs) d) Hbs) as (blocks & Hpk & Hcat & Hlen).
  { rewrite length_drop. lia. }
  exists ((take (Z.to_nat bs) d
           ++ replicate (Z.to_nat bs - length d) FILLER) :: blocks).
  split; [by rewrite Hpk|]. split.
  - cbn [concat]. rewrite Hcat.
    destruct (decide (Z.to_nat bs <= length d)%nat) as [Hle|Hgt].
    + rewrite padding_drop by done.
      replace (Z.to_nat bs - length d)%nat with 0%nat by lia.
      cbn [replicate]. rewrite app_nil_r, app_assoc. by rewrite take_drop.
    + rewrite drop_ge, take_ge by lia. cbn [length app].
      assert (Hz : padding bs 0 = 0%nat) by (unfold padding; by rewrite Z.mod_0_l by lia).
      rewrite Hz. cbn [replicate]. rewrite app_nil_r.
      by rewrite padding_short by lia.
  - constructor; [|done].
    rewrite length_app, length_take, length_replicate. lia.
Qed.

End Packaging.

(** ** The sender from the first byte to the last ACK *)

Section SenderRun.

Import Sender.

(** The queue [send] builds. *)
Lemma send_packaging
    (cfg : config) (mode : op_mode) (dataBuffer : list Z) :
  0 < block_size cfg ->
  exists blocks,
    send cfg mode dataBuffer
    = ([Emit (Ready (Z.of_nat (length (queue_of cfg blocks)) - 1))],
       Some (Vars (XMODEM_START_BLOCK cfg) (queue_of cfg blocks) false mode))
    /\ concat blocks
       = dataBuffer
           ++ replicate (padding (block_size cfg) (length dataBuffer)) FILLER
    /\ Forall (fun p => Z.of_nat (length p) = block_size cfg) blocks
    /\ Z.of_nat (padding (block_size cfg) (length dataBuffer))
       < block_size cfg.
Proof.
  intros Hbs.
  destruct (package_blocks_spec (block_size cfg) (length dataBuffer)
              dataBuffer Hbs (le_n _)) as (blocks & Hpk & Hcat & Hlen).
  exists blocks. split; [|split; [done|split]].
  - unfold send, queue_of. by rewrite Hpk.
  - eapply Forall_impl; [exact Hlen|]. cbn. intros p Hp. lia.
  - unfold padding.
    pose proof (Z.mod_pos_bound (- Z.of_nat (length dataBuffer))
                  (block_size cfg) Hbs). lia.
Qed.

(** X1. With a positive block size, [send] cuts the payload into blocks of
    exactly [block_size] bytes whose concatenation is the payload followed by
    fewer than [block_size] filler bytes; the queue is the placeholders
    followed by these blocks, the cursor is at the start block, and the
    [ready] event carries the length of the queue minus one. *)
Theorem send_packages_payload
    (cfg : config) (mode : op_mode) (dataBuffer : list Z) :
  0 < block_size cfg ->
  exists blocks,
    send cfg mode dataBuffer
    = ([Emit (Ready (Z.of_nat (length (queue_of cfg blocks)) - 1))],
       Some (Vars (XMODEM_START_BLOCK cfg) (queue_of cfg blocks) false mode))
    /\ concat blocks
       = dataBuffer
           ++ replicate (padding (block_size cfg) (length dataBuffer)) FILLER
    /\ Forall (fun p => Z.of_nat (length p) = block_size cfg) blocks
    /\ Z.of_nat (padding (block_size cfg) (length dataBuffer))
       < block_size cfg.
Proof. apply send_packaging. Qed.

Lemma send_packages_payload_witness :
  exists blocks,
    send default_config Crc [0x41; 0x42; 0x43]
    = ([Emit (Ready (Z.of_nat (length (queue_of default_config blocks)) - 1))],
       Some (Vars 1 (queue_of default_config blocks) false Crc))
    /\ concat blocks = [0x41; 0x42; 0x43] ++ replicate 125 FILLER
    /\ Forall (fun p => Z.of_nat (length p) = 128) blocks
    /\ Z.of_nat 125 < 128.
Proof.
  apply (send_packages_payload default_config Crc [0x41; 0x42; 0x43]).
  cbn. lia.
Defined.

Lemma at_index_queue cfg blocks (i : nat) p :
  0 <= XMODEM_START_BLOCK cfg ->
  blocks !! i = Some p ->
  at_index (queue_of cfg blocks) (XMODEM_START_BLOCK cfg + Z.of_nat i)
  = Some (Block p).
Proof.
  intros Hstart Hp. unfold at_index, queue_of.
  destruct (Z.ltb_spec (XMODEM_START_BLOCK cfg + Z.of_nat i) 0) as [?|_];
    [lia|].
  rewrite lookup_app_r by (rewrite length_replicate; lia).
  rewrite length_replicate.
  replace (_ - _)%nat with i by lia.
  by rewrite list_lookup_fmap, Hp.
Qed.

Lemma length_queue cfg blocks :
  0 <= XMODEM_START_BLOCK cfg ->
  Z.of_nat (length (queue_of cfg blocks))
  = XMODEM_START_BLOCK cfg + Z.of_nat (length blocks).
Proof.
  intros Hstart. unfold queue_of.
  rewrite length_app, length_replicate, length_map. lia.
Qed.

(** ACK while a block remains: the next block is sent. *)
Lemma sendData_ack_next cfg st rest p :
  XMODEM_START_BLOCK cfg < blockNumber st ->
  blockNumber st < Z.of_nat (length (packagedBuffer st)) ->
  at_index (packagedBuffer st) (blockNumber st) = Some (Block p) ->
  sendData cfg st (ACK :: rest)
  = ([Emit (Status ActRecv SigACK None);
      SocketWrite (sendBlock_frame (blockNumber st) p (XMODEM_OP_MODE st));
      Emit (Status ActSend SigSOH (Some (blockNumber st)))],
     Some (set_blockNumber st (blockNumber st + 1))).
Proof.
  intros Hpast Hlt Hp. unfold sendData. rewrite at_index_0.
  change (strict_eq (Some ACK) CRC_MODE) with false.
  change (strict_eq (Some ACK) NAK) with false.
  change (strict_eq (Some ACK) ACK) with true.
  cbn [andb]. rewrite !Z.gtb_ltb.
  rewrite (proj2 (Z.ltb_lt _ _) Hpast), (proj2 (Z.ltb_lt _ _) Hlt).
  by rewrite (transmit_block st p).
Qed.

(** ACK when the queue is exhausted: EOT first, completion next. *)
Lemma sendData_ack_at_end cfg st rest :
  XMODEM_START_BLOCK cfg < blockNumber st ->
  blockNumber st = Z.of_nat (length (packagedBuffer st)) ->
  sendData cfg st (ACK :: rest)
  = if sent_eof st
    then ([Emit (Status ActRecv SigACK None); Emit (Stop 0); RemoveListener],
          Some st)
    else ([Emit (Status ActRecv SigACK None);
           Emit (Status ActSend SigEOT None); SocketWrite [EOT]],
          Some (set_sent_eof st true)).
Proof.
  intros Hpast Hend. unfold sendData. rewrite at_index_0.
  change (strict_eq (Some ACK) CRC_MODE) with false.
  change (strict_eq (Some ACK) NAK) with false.
  change (strict_eq (Some ACK) ACK) with true.
  cbn [andb]. rewrite !Z.gtb_ltb.
  rewrite (proj2 (Z.ltb_lt _ _) Hpast).
  rewrite (proj2 (Z.ltb_ge _ _)) by lia.
  rewrite (proj2 (Z.eqb_eq _ _)) by lia.
  by destruct (sent_eof st).
Qed.

(** The first byte at the start block, when a block is queued. *)
Lemma sendData_first_byte cfg st first rest m p :
  requested_mode first = Some m ->
  blockNumber st = XMODEM_START_BLOCK cfg ->
  blockNumber st < Z.of_nat (length (packagedBuffer st)) ->
  at_index (packagedBuffer st) (blockNumber st) = Some (Block p) ->
  sendData cfg st (first :: rest)
  = ([Emit (Start m);
      SocketWrite (sendBlock_frame (blockNumber st) p m);
      Emit (Status ActSend SigSOH (Some (blockNumber st)))],
     Some (Vars (blockNumber st + 1) (packagedBuffer st) (sent_eof st) m)).
Proof.
  intros Hm Hat Hlt Hp. unfold sendData. rewrite at_index_0.
  cbn [strict_eq]. rewrite (proj2 (Z.eqb_eq _ _) Hat), !andb_true_r.
  unfold requested_mode in Hm.
  assert (Hbegin : begin st m
    = ([Emit (Start m);
        SocketWrite (sendBlock_frame (blockNumber st) p m);
        Emit (Status ActSend SigSOH (Some (blockNumber st)))],
       Some (Vars (blockNumber st + 1) (packagedBuffer st) (sent_eof st) m))).
  { unfold begin. cbn [set_mode blockNumber packagedBuffer].
    rewrite Z.gtb_ltb, (proj2 (Z.ltb_lt _ _) Hlt).
    by rewrite (transmit_block (set_mode st m) p). }
  destruct (first =? CRC_MODE).
  - by injection Hm as <-.
  - destruct (first =? NAK); [|done]. by injection Hm as <-.
Qed.

Lemma deliver_cons_continue {S} (h : S -> list Z -> Eff S) st data rest t st' :
  h st data = (t, Some st') ->
  existsb is_remove_listener t = false ->
  deliver h st (data :: rest)
  = (t ++ fst (deliver h st' rest), snd (deliver h st' rest)).
Proof.
  intros Hh Ht. cbn [deliver]. rewrite Hh, Ht.
  by destruct (deliver h st' rest).
Qed.

Lemma deliver_app_continue {S} (h : S -> list Z -> Eff S) chunks :
  forall st more t st',
  deliver h st chunks = (t, Some st') ->
  existsb is_remove_listener t = false ->
  deliver h st (chunks ++ more)
  = (t ++ fst (deliver h st' more), snd (deliver h st' more)).
Proof.
  induction chunks as [|data chunks IH]; intros st more t st' Hrun Ht.
  - cbn in Hrun. injection Hrun as <- <-. cbn [app].
    by destruct (deliver h st more).
  - cbn [deliver app] in *.
    destruct (h st data) as [t1 [st1|]]; [|done].
    destruct (existsb is_remove_listener t1) eqn:Ht1.
    + injection Hrun as <- <-. congruence.
    + destruct (deliver h st1 chunks) as [t2 r2] eqn:Hrest.
      injection Hrun as <- ->.
      rewrite existsb_app in Ht. apply orb_false_iff in Ht as [_ Ht2].
      rewrite (IH st1 more t2 st' Hrest Ht2).
      by rewrite app_assoc.
Qed.

(** ACKs while blocks remain. *)
Lemma deliver_acks cfg m sent_ rest : forall done,
  0 <= XMODEM_START_BLOCK cfg ->
  (0 < length done)%nat ->
  deliver (sendData cfg)
    (Vars (XMODEM_START_BLOCK cfg + Z.of_nat (length done))
       (queue_of cfg (done ++ rest)) false m)
    (replicate (length rest) [ACK] ++ sent_)
  = (ack_traces (XMODEM_START_BLOCK cfg + Z.of_nat (length done)) m rest
       ++ fst (deliver (sendData cfg)
                 (Vars (XMODEM_START_BLOCK cfg
                        + Z.of_nat (length (done ++ rest)))
                    (queue_of cfg (done ++ rest)) false m) sent_),
     snd (deliver (sendData cfg)
            (Vars (XMODEM_START_BLOCK cfg + Z.of_nat (length (done ++ rest)))
               (queue_of cfg (done ++ rest)) false m) sent_)).
Proof.
  induction rest as [|p rest IH]; intros done Hstart Hdone.
  - rewrite app_nil_r. cbn [length replicate app ack_traces].
    by destruct (deliver _ _ _).
  - cbn [length replicate app ack_traces].
    erewrite deliver_cons_continue; cycle 1.
    + apply (sendData_ack_next _ _ _ p);
        cbn [blockNumber packagedBuffer].
      * lia.
      * rewrite length_queue, length_app by done. cbn [length]. lia.
      * apply at_index_queue; [done|].
        by rewrite lookup_app_r, Nat.sub_diag by lia.
    + reflexivity.
    + unfold set_blockNumber.
      cbn [blockNumber packagedBuffer sent_eof XMODEM_OP_MODE].
      replace (done ++ p :: rest) with ((done ++ [p]) ++ rest)
        by (by rewrite <- app_assoc).
      specialize (IH (done ++ [p]) Hstart).
      rewrite length_app in IH. cbn [length] in IH.
      replace (XMODEM_START_BLOCK cfg + Z.of_nat (length done) + 1)
        with (XMODEM_START_BLOCK cfg + Z.of_nat (length done + 1)) by lia.
      rewrite IH by lia.
      by rewrite <- !app_assoc.
Qed.

Lemma socket_writes_ack_traces blockNr m blocks :
  socket_writes (ack_traces blockNr m blocks) = block_frames blockNr m blocks.
Proof.
  revert blockNr. induction blocks as [|p blocks IH]; intros blockNr; [done|].
  cbn [ack_traces block_frames]. rewrite socket_writes_app, IH. done.
Qed.

(** The sender from the first byte to the ACK of EOT. *)
Lemma sender_run_to_completion
    (cfg : config) (mode0 m : op_mode) (first : Z)
    (p : list Z) (blocks : list (list Z)) :
  0 <= XMODEM_START_BLOCK cfg ->
  requested_mode first = Some m ->
  deliver (sendData cfg)
    (Vars (XMODEM_START_BLOCK cfg) (queue_of cfg (p :: blocks)) false mode0)
    ([first] :: replicate (length blocks) [ACK] ++ [[ACK]; [ACK]])
  = ([Emit (Start m);
      SocketWrite (sendBlock_frame (XMODEM_START_BLOCK cfg) p m);
      Emit (Status ActSend SigSOH (Some (XMODEM_START_BLOCK cfg)))]
       ++ ack_traces (XMODEM_START_BLOCK cfg + 1) m blocks
       ++ [Emit (Status ActRecv SigACK None);
           Emit (Status ActSend SigEOT None); SocketWrite [EOT]]
       ++ [Emit (Status ActRecv SigACK None); Emit (Stop 0); RemoveListener],
     Some (Vars (XMODEM_START_BLOCK cfg + Z.of_nat (length (p :: blocks)))
             (queue_of cfg (p :: blocks)) true m))
  /\ socket_writes
       (fst (deliver (sendData cfg)
               (Vars (XMODEM_START_BLOCK cfg) (queue_of cfg (p :: blocks))
                  false mode0)
               ([first] :: replicate (length blocks) [ACK]
                  ++ [[ACK]; [ACK]])))
     = block_frames (XMODEM_START_BLOCK cfg) m (p :: blocks) ++ [[EOT]].
Proof.
  intros Hstart Hm.
  assert (Hrun : deliver (sendData cfg)
    (Vars (XMODEM_START_BLOCK cfg) (queue_of cfg (p :: blocks)) false mode0)
    ([first] :: replicate (length blocks) [ACK] ++ [[ACK]; [ACK]])
  = ([Emit (Start m);
      SocketWrite (sendBlock_frame (XMODEM_START_BLOCK cfg) p m);
      Emit (Status ActSend SigSOH (Some (XMODEM_START_BLOCK cfg)))]
       ++ ack_traces (XMODEM_START_BLOCK cfg + 1) m blocks
       ++ [Emit (Status ActRecv SigACK None);
           Emit (Status ActSend SigEOT None); SocketWrite [EOT]]
       ++ [Emit (Status ActRecv SigACK None); Emit (Stop 0); RemoveListener],
     Some (Vars (XMODEM_START_BLOCK cfg + Z.of_nat (length (p :: blocks)))
             (queue_of cfg (p :: blocks)) true m))).
  { erewrite deliver_cons_continue; cycle 1.
    - apply (sendData_first_byte _ _ _ _ m p); cbn [blockNumber packagedBuffer].
      + done.
      + done.
      + rewrite length_queue by done. cbn [length]. lia.
      + pose proof (at_index_queue cfg (p :: blocks) 0%nat p Hstart eq_refl)
          as Hq.
        by rewrite Z.add_0_r in Hq.
    - reflexivity.
    - cbn [blockNumber packagedBuffer sent_eof].
      pose proof (deliver_acks cfg m [[ACK]; [ACK]] blocks [p] Hstart) as Hacks.
      change (Z.of_nat (length [p])) with 1 in Hacks.
      change ([p] ++ blocks) with (p :: blocks) in Hacks.
      rewrite Hacks by (cbn; lia). clear Hacks.
      set (n := Z.of_nat (length (p :: blocks))).
      assert (Hend : XMODEM_START_BLOCK cfg + n
                     = Z.of_nat (length (queue_of cfg (p :: blocks))))
        by (rewrite length_queue by done; unfold n; lia).
      assert (Hpast : XMODEM_START_BLOCK cfg < XMODEM_START_BLOCK cfg + n)
        by (unfold n; cbn [length]; lia).
      erewrite (deliver_cons_continue (sendData cfg)); cycle 1.
      + rewrite sendData_ack_at_end by done. reflexivity.
      + reflexivity.
      + cbn [deliver]. unfold set_sent_eof.
        cbn [blockNumber packagedBuffer sent_eof XMODEM_OP_MODE].
        rewrite sendData_ack_at_end by done.
        cbn [sent_eof existsb is_remove_listener orb fst snd].
        reflexivity. }
  split; [exact Hrun|].
  rewrite Hrun. cbn [fst].
  rewrite !socket_writes_app, socket_writes_ack_traces. reflexivity.
Qed.

(** X2. A sender with at least one block queued, given a first byte that
    asks for a mode (C for crc, NAK for checksum) and then one ACK per
    frame and per EOT: it adopts the mode, writes the frames of all blocks
    in order, numbered from the start block, then EOT, and on the last ACK
    emits [stop] with code 0 and removes its listener. *)
Theorem sender_completes_under_acks
    (cfg : config) (mode0 m : op_mode) (first : Z)
    (p : list Z) (blocks : list (list Z)) :
  0 <= XMODEM_START_BLOCK cfg ->
  requested_mode first = Some m ->
  deliver (sendData cfg)
    (Vars (XMODEM_START_BLOCK cfg) (queue_of cfg (p :: blocks)) false mode0)
    ([first] :: replicate (length blocks) [ACK] ++ [[ACK]; [ACK]])
  = ([Emit (Start m);
      SocketWrite (sendBlock_frame (XMODEM_START_BLOCK cfg) p m);
      Emit (Status ActSend SigSOH (Some (XMODEM_START_BLOCK cfg)))]
       ++ ack_traces (XMODEM_START_BLOCK cfg + 1) m blocks
       ++ [Emit (Status ActRecv SigACK None);
           Emit (Status ActSend SigEOT None); SocketWrite [EOT]]
       ++ [Emit (Status ActRecv SigACK None); Emit (Stop 0); RemoveListener],
     Some (Vars (XMODEM_START_BLOCK cfg + Z.of_nat (length (p :: blocks)))
             (queue_of cfg (p :: blocks)) true m))
  /\ socket_writes
       (fst (deliver (sendData cfg)
               (Vars (XMODEM_START_BLOCK cfg) (queue_of cfg (p :: blocks))
                  false mode0)
               ([first] :: replicate (length blocks) [ACK]
                  ++ [[ACK]; [ACK]])))
     = block_frames (XMODEM_START_BLOCK cfg) m (p :: blocks) ++ [[EOT]].
Proof. apply sender_run_to_completion. Qed.

Lemma sender_completes_under_acks_witness :
  socket_writes
    (fst (deliver (sendData default_config)
            (Vars 1 (queue_of default_config [[0x41]; [0x42]]) false Crc)
            ([NAK] :: replicate 1 [ACK] ++ [[ACK]; [ACK]])))
  = block_frames 1 Normal [[0x41]; [0x42]] ++ [[EOT]].
Proof.
  assert (Hstart : 0 <= XMODEM_START_BLOCK default_config) by (cbn; lia).
  exact (proj2 (sender_completes_under_acks default_config Crc Normal NAK
                  [0x41] [[0x42]] Hstart eq_refl)).
Defined.

End SenderRun.

(** ** What the sender never does *)

Section SenderSafety.

Import Sender.

Lemma transmit_safe cfg st0 st :
  sender_inv cfg st0 ->
  packagedBuffer st = packagedBuffer st0 ->
  XMODEM_START_BLOCK cfg <= blockNumber st
    < Z.of_nat (length (packagedBuffer st0)) ->
  exists t' st',
    transmit st = (t', Some st')
    /\ packagedBuffer st' = packagedBuffer st0
    /\ Forall (queued_write cfg (packagedBuffer st0)) (socket_writes t').
Proof.
  intros (_ & _ & Hblocks) Hpb Hrange.
  destruct (Hblocks (blockNumber st) Hrange) as [p Hp].
  rewrite <- Hpb in Hp. rewrite (transmit_block st p Hp).
  eexists _, _. split; [reflexivity|]. split; [done|].
  cbn. constructor; [|apply Forall_nil_2].
  right. exists (blockNumber st), p, (XMODEM_OP_MODE st).
  rewrite <- Hpb. by split; [lia|].
Qed.

Lemma prepend_event {A} e (m : Eff A) t' r :
  m = (t', r) -> (tell (Emit e) ;;; m) = (Emit e :: t', r).
Proof. intros ->. reflexivity. Qed.

(** One chunk in a state that satisfies the invariant: the handler returns
    normally, leaves the queue alone, and writes at most frames of queued
    blocks and EOT. *)
Lemma sendData_safe cfg st data :
  0 <= XMODEM_START_BLOCK cfg ->
  sender_inv cfg st ->
  exists t' st',
    sendData cfg st data = (t', Some st')
    /\ packagedBuffer st' = packagedBuffer st
    /\ Forall (queued_write cfg (packagedBuffer st)) (socket_writes t').
Proof.
  intros Hstart Hinv. pose proof Hinv as (Hrange & Heof & Hblocks).
  assert (Hbegin : forall m, blockNumber st = XMODEM_START_BLOCK cfg ->
    exists t' st', begin st m = (t', Some st')
      /\ packagedBuffer st' = packagedBuffer st
      /\ Forall (queued_write cfg (packagedBuffer st)) (socket_writes t')).
  { intros m Hat. unfold begin. rewrite Z.gtb_ltb.
    cbn [set_mode blockNumber packagedBuffer].
    destruct (Z.ltb_spec (blockNumber st)
                (Z.of_nat (length (packagedBuffer st)))) as [Hlt|Hge].
    - destruct (transmit_safe cfg st (set_mode st m) Hinv eq_refl)
        as (t' & st' & Htx & Hpb & Hw); [cbn; lia|].
      eexists _, _. split; [by apply prepend_event|]. by split.
    - eexists _, _. split; [reflexivity|]. split; [done|]. constructor. }
  unfold sendData. rewrite !Z.gtb_ltb.
  destruct (strict_eq (at_index data 0) CRC_MODE
            && (blockNumber st =? XMODEM_START_BLOCK cfg)) eqn:E1.
  { apply andb_true_iff in E1 as [_ Hat%Z.eqb_eq]. by apply Hbegin. }
  destruct (strict_eq (at_index data 0) NAK
            && (blockNumber st =? XMODEM_START_BLOCK cfg)) eqn:E2.
  { apply andb_true_iff in E2 as [_ Hat%Z.eqb_eq]. by apply Hbegin. }
  destruct (strict_eq (at_index data 0) ACK
            && (XMODEM_START_BLOCK cfg <? blockNumber st)) eqn:E3.
  { apply andb_true_iff in E3 as [_ Hpast%Z.ltb_lt].
    destruct (Z.ltb_spec (blockNumber st)
                (Z.of_nat (length (packagedBuffer st)))) as [Hlt|Hge].
    - destruct (transmit_safe cfg st st Hinv eq_refl)
        as (t' & st' & Htx & Hpb & Hw); [lia|].
      eexists _, _. split; [by apply prepend_event|]. by split.
    - rewrite (proj2 (Z.eqb_eq (Z.of_nat (length (packagedBuffer st)))
                        (blockNumber st))) by lia.
      destruct (sent_eof st); cbn [negb];
        (eexists _, _; split; [reflexivity|]; split; [done|]); cbn.
      + apply Forall_nil_2.
      + constructor; [by left | apply Forall_nil_2]. }
  destruct (strict_eq (at_index data 0) NAK
            && (XMODEM_START_BLOCK cfg <? blockNumber st)) eqn:E4.
  { apply andb_true_iff in E4 as [[rest ->]%strict_eq_first Hpast%Z.ltb_lt].
    pose proof (sendData_nak_past_start cfg st rest Hinv Hpast) as Hnak.
    unfold sendData in Hnak. rewrite !Z.gtb_ltb, E1, E2, E3 in Hnak.
    rewrite at_index_0 in Hnak.
    change (strict_eq (Some NAK) NAK) with true in Hnak.
    rewrite (proj2 (Z.ltb_lt _ _) Hpast) in Hnak. cbn [andb] in Hnak.
    rewrite Hnak.
    eexists _, _. split; [reflexivity|]. split; [done|].
    unfold nak_response.
    destruct (sent_eof st) eqn:He; cbn; (constructor; [|apply Forall_nil_2]).
    - by left.
    - destruct (Hblocks (blockNumber st - 1) ltac:(lia)) as [p Hp].
      rewrite (in_flight_block st p He Hp).
      right. exists (blockNumber st - 1), p, (XMODEM_OP_MODE st).
      by split; [lia|]. }
  eexists _, _. split; [reflexivity|]. split; [done|]. constructor.
Qed.

Lemma socket_writes_Forall_app (P : list Z -> Prop) t t' :
  Forall P (socket_writes t) -> Forall P (socket_writes t') ->
  Forall P (socket_writes (t ++ t')).
Proof. intros. rewrite socket_writes_app. by apply Forall_app. Qed.

(** X3. In every state the sender can reach (after [send], then any inbound
    chunks), with a start block that is not negative: the handler returns
    normally on any chunk (no exception from a missing or non-buffer
    block), the queue is still the one [send] built, and every buffer
    written to the socket so far is EOT or the frame of a queued block
    under its own index. *)
Theorem sender_writes_only_queued_frames
    (cfg : config) (mode : op_mode) (dataBuffer : list Z)
    (t : list effect) (st : vars) :
  0 <= XMODEM_START_BLOCK cfg ->
  sender_reaches cfg mode dataBuffer t st ->
  (forall data, exists t' st', sendData cfg st data = (t', Some st'))
  /\ (forall t0 st0, send cfg mode dataBuffer = (t0, Some st0) ->
        packagedBuffer st = packagedBuffer st0)
  /\ Forall (queued_write cfg (packagedBuffer st)) (socket_writes t).
Proof.
  intros Hstart Hreach.
  assert (Hinv : sender_inv cfg st)
    by (by eapply sender_reaches_inv).
  split.
  { intros data.
    destruct (sendData_safe cfg st data Hstart Hinv) as (t' & st' & H & _).
    by eexists _, _. }
  induction Hreach as [t st Hsend | t st data t' st' Hreach IH Hrun].
  - split.
    + intros t0 st0 Hsend0. rewrite Hsend in Hsend0. by injection Hsend0 as _ <-.
    + unfold send in Hsend. cbn in Hsend. injection Hsend as <- _.
      constructor.
  - assert (Hinv0 : sender_inv cfg st) by (by eapply sender_reaches_inv).
    destruct (IH Hinv0) as [Hq Hw].
    destruct (sendData_safe cfg st data Hstart Hinv0)
      as (t1 & st1 & Hrun1 & Hpb & Hw1).
    rewrite Hrun in Hrun1. injection Hrun1 as <- <-.
    split.
    + intros t0 st0 Hsend0. rewrite Hpb. by eapply Hq.
    + rewrite Hpb. by apply socket_writes_Forall_app.
Qed.

Lemma sender_writes_only_queued_frames_witness :
  Forall (queued_write (Config 1 5 10 3 10 4)
            [Placeholder; Block [0x41; 0x42; 0x43; FILLER]])
    (socket_writes
       ([Emit (Ready 1)]
          ++ [Emit (Start Crc);
              SocketWrite (sendBlock_frame 1 [0x41; 0x42; 0x43; FILLER] Crc);
              Emit (Status ActSend SigSOH (Some 1))])).
Proof.
  assert (Hreach :
    sender_reaches (Config 1 5 10 3 10 4) Normal [0x41; 0x42; 0x43]
      ([Emit (Ready 1)]
         ++ [Emit (Start Crc);
             SocketWrite (sendBlock_frame 1 [0x41; 0x42; 0x43; FILLER] Crc);
             Emit (Status ActSend SigSOH (Some 1))])
      (Vars 2 [Placeholder; Block [0x41; 0x42; 0x43; FILLER]] false Crc)).
  { eapply (reaches_data _ _ _ _ _ [CRC_MODE]).
    - apply reaches_send. reflexivity.
    - reflexivity. }
  assert (Hstart : 0 <= XMODEM_START_BLOCK (Config 1 5 10 3 10 4))
    by (cbn; lia).
  exact (proj2 (proj2 (sender_writes_only_queued_frames _ _ _ _ _
                         Hstart Hreach))).
Defined.



End SenderSafety.

(** ** The decoder, frame by frame *)

Section Decoder.

Lemma buffer_slice_body {A} (a s c : A) (body : list A) (cl : Z) :
  1 <= cl <= 2 ->
  buffer_slice (a :: s :: c :: body) 3
    (Z.of_nat (length (a :: s :: c :: body)) - cl)
  = take (length body - Z.to_nat cl) body.
Proof.
  intros Hcl. unfold buffer_slice, clamp_index. cbn [length].
  destruct (Z.ltb_spec 3 0) as [?|_]; [lia|].
  destruct (Z.ltb_spec (Z.of_nat (S (S (S (length body)))) - cl) 0)
    as [?|_]; [lia|].
  rewrite !Z.min_l by lia.
  replace (Z.to_nat 3) with 3%nat by lia. cbn [drop].
  f_equal. lia.
Qed.

Lemma checksum_length_range mode : 1 <= checksum_length mode <= 2.
Proof. destruct mode; cbn; lia. Qed.

(** X5. With a positive block size the decoder accepts a chunk exactly when
    the chunk is one whole frame: SOH, a sequence byte equal to
    [blockNr % 0x100], its complement to 0xFF, [block_size] payload bytes
    and a trailer of the width of the mode. The payload handed to the
    callback is then those bytes. A frame that arrives split over two
    chunks or glued to another one is therefore never accepted. *)
Theorem receiveBlock_accepted_iff
    (blockNr : Z) (frame : list Z) (bs : Z) (mode : op_mode)
    (payload : list Z) :
  0 < bs ->
  snd (receiveBlock blockNr frame bs mode) = Accepted payload
  <-> exists s c trailer,
        frame = SOH :: s :: c :: payload ++ trailer
        /\ s + c = 0xff
        /\ s = Z.rem blockNr 0x100
        /\ Z.of_nat (length payload) = bs
        /\ Z.of_nat (length trailer) = checksum_length mode.
Proof.
  intros Hbs. split.
  - unfold receiveBlock, parseInt. cbv zeta.
    destruct (strict_eq (at_index frame 0) SOH) eqn:Hsoh; [|discriminate].
    apply strict_eq_first in Hsoh as [f1 ->].
    destruct f1 as [|s [|c body]]; try discriminate.
    rewrite at_index_1, at_index_2. cbn [sum_eq strict_eq].
    destruct (Z.eqb_spec (s + c) 255) as [Hsum|]; [|discriminate].
    destruct (Z.eqb_spec s (Z.rem blockNr 256)) as [Hseq|]; [|discriminate].
    rewrite buffer_slice_body by apply checksum_length_range.
    pose proof (checksum_length_range mode) as Hcl.
    destruct (Z.eqb_spec
                (Z.of_nat (length (take (length body
                                         - Z.to_nat (checksum_length mode))
                                     body))) bs) as [Hlen|];
      [|discriminate].
    cbn [snd]. intros [= <-].
    rewrite length_take in Hlen.
    exists s, c, (drop (length body - Z.to_nat (checksum_length mode)) body).
    rewrite take_drop. repeat split; try done.
    + rewrite length_take. lia.
    + rewrite length_drop. lia.
  - intros (s & c & trailer & -> & Hsum & Hseq & Hlen & Htr).
    by rewrite (receiveBlock_accepts _ _ _ _ _ _ _ Hsum Hseq Htr Hlen).
Qed.

Lemma receiveBlock_accepted_iff_witness :
  snd (receiveBlock 1 (sendBlock_frame 1 [0x41; 0x42] Normal) 2 Normal)
  = Accepted [0x41; 0x42]
  <-> exists s c trailer,
        sendBlock_frame 1 [0x41; 0x42] Normal
        = SOH :: s :: c :: [0x41; 0x42] ++ trailer
        /\ s + c = 0xff
        /\ s = Z.rem 1 0x100
        /\ Z.of_nat (length [0x41; 0x42]) = 2
        /\ Z.of_nat (length trailer) = checksum_length Normal.
Proof.
  apply (receiveBlock_accepted_iff 1 (sendBlock_frame 1 [0x41; 0x42] Normal)
           2 Normal [0x41; 0x42]).
  lia.
Defined.

End Decoder.

(** ** The receiver from the first block to EOT *)

Section ReceiverRun.

Import Receiver.

Lemma receiveData_accepts_frame cfg kind st p :
  0 <= blockNumber st ->
  well_formed_block cfg p ->
  tryCounter st + 1 <= XMODEM_MAX_ERRORS cfg ->
  receiveData cfg kind st
    (sendBlock_frame (blockNumber st) p (XMODEM_OP_MODE st))
  = ((if transfer_initiated st then [] else [ClearInterval])
       ++ [SocketWrite [ACK]],
     Some (Vars (blockNumber st + 1) (packagedBuffer st ++ [Block p]) true 0
             (XMODEM_OP_MODE st))).
Proof.
  intros Hbn [Hb Hlen] Htry.
  destruct (sendBlock_frame_shape (blockNumber st) p (XMODEM_OP_MODE st) Hb)
    as (tr & -> & Htr).
  apply receiveData_valid_header; try done.
  - apply to_uint8_complement.
  - unfold to_uint8. symmetry. apply Z.rem_mod_nonneg; lia.
Qed.

(** Frames of consecutive blocks, in order, once the transfer has been
    initiated. *)
Lemma deliver_block_frames cfg kind more : forall blocks st,
  transfer_initiated st = true ->
  0 <= blockNumber st ->
  1 <= XMODEM_MAX_ERRORS cfg ->
  tryCounter st + 1 <= XMODEM_MAX_ERRORS cfg ->
  Forall (well_formed_block cfg) blocks ->
  let st' :=
    Vars (blockNumber st + Z.of_nat (length blocks))
      (packagedBuffer st ++ map Block blocks) true
      (match blocks with [] => tryCounter st | _ => 0 end)
      (XMODEM_OP_MODE st) in
  deliver (receiveData cfg kind) st
    (block_frames (blockNumber st) (XMODEM_OP_MODE st) blocks ++ more)
  = (replicate (length blocks) (SocketWrite [ACK])
       ++ fst (deliver (receiveData cfg kind) st' more),
     snd (deliver (receiveData cfg kind) st' more)).
Proof.
  induction blocks as [|p blocks IH]; intros st Hinit Hbn Hmax Htry Hall st'.
  - subst st'. cbn [block_frames length map app replicate].
    rewrite Z.add_0_r, app_nil_r.
    destruct st as [bn pb ti tc m]. cbn in Hinit. subst ti. cbn.
    by destruct (deliver _ _ _).
  - apply Forall_cons in Hall as [Hp Hall].
    cbn [block_frames app].
    erewrite deliver_cons_continue; cycle 1.
    + by apply receiveData_accepts_frame.
    + rewrite Hinit. reflexivity.
    + rewrite Hinit. cbn [app].
      specialize (IH (Vars (blockNumber st + 1) (packagedBuffer st ++ [Block p])
                        true 0 (XMODEM_OP_MODE st))).
      cbn [blockNumber packagedBuffer transfer_initiated tryCounter
           XMODEM_OP_MODE] in IH.
      rewrite IH by (done || lia).
      subst st'. cbn [length map replicate app].
      replace (blockNumber st + 1 + Z.of_nat (length blocks))
        with (blockNumber st + Z.of_nat (S (length blocks))) by lia.
      rewrite <- app_assoc. cbn [app].
      by destruct blocks.
Qed.

Lemma at_index_queue_last cfg front (lastp : list Z) :
  0 <= XMODEM_START_BLOCK cfg ->
  at_index (queue_of cfg (front ++ [lastp]))
    (XMODEM_START_BLOCK cfg + Z.of_nat (length (front ++ [lastp])) - 1)
  = Some (Block lastp).
Proof.
  intros Hstart.
  replace (XMODEM_START_BLOCK cfg + Z.of_nat (length (front ++ [lastp])) - 1)
    with (XMODEM_START_BLOCK cfg + Z.of_nat (length front))
    by (rewrite length_app; cbn [length]; lia).
  apply at_index_queue; [done|].
  by rewrite lookup_app_r, Nat.sub_diag by lia.
Qed.

(** The receiver from the first frame to EOT. *)
Lemma receiver_run_to_eot
    (cfg : config) (kind : transport) (m : op_mode)
    (front : list (list Z)) (lastp : list Z) :
  0 <= XMODEM_START_BLOCK cfg ->
  1 <= XMODEM_MAX_ERRORS cfg ->
  Forall (well_formed_block cfg) (front ++ [lastp]) ->
  let written :=
    trim_last (queue_of cfg (front ++ [lastp]))
      (XMODEM_START_BLOCK cfg + Z.of_nat (length front)) (Block lastp) in
  deliver (receiveData cfg kind)
    (Vars (XMODEM_START_BLOCK cfg) (queue_of cfg []) false 0 m)
    (block_frames (XMODEM_START_BLOCK cfg) m (front ++ [lastp]) ++ [[EOT]])
  = ([ClearInterval]
       ++ replicate (length (front ++ [lastp])) (SocketWrite [ACK])
       ++ [SocketWrite [ACK]; WriteFile written] ++ fst (finish kind),
     Some (Vars (XMODEM_START_BLOCK cfg + Z.of_nat (length front)) written
             true 1 m)).
Proof.
  intros Hstart Hmax Hall written.
  destruct (front ++ [lastp]) as [|p rest] eqn:Hblocks.
  { by destruct front. }
  apply Forall_cons in Hall as [Hp Hall].
  cbn [block_frames app].
  erewrite deliver_cons_continue; cycle 1.
  - by apply (receiveData_accepts_frame cfg kind
                (Vars (XMODEM_START_BLOCK cfg) (queue_of cfg []) false 0 m) p).
  - reflexivity.
  - cbn [blockNumber packagedBuffer transfer_initiated tryCounter
         XMODEM_OP_MODE app].
    pose proof (deliver_block_frames cfg kind [[EOT]] rest
                  (Vars (XMODEM_START_BLOCK cfg + 1)
                     (queue_of cfg [] ++ [Block p]) true 0 m)) as Hrun.
    cbn [blockNumber packagedBuffer transfer_initiated tryCounter
         XMODEM_OP_MODE] in Hrun.
    rewrite Hrun by (done || lia). clear Hrun.
    assert (Hq : (queue_of cfg [] ++ [Block p]) ++ map Block rest
                 = queue_of cfg (p :: rest)).
    { unfold queue_of. cbn [map]. by rewrite app_nil_r, <- app_assoc. }
    rewrite Hq.
    assert (Hn : XMODEM_START_BLOCK cfg + 1 + Z.of_nat (length rest) - 1
                 = XMODEM_START_BLOCK cfg + Z.of_nat (length front)).
    { assert (Hl : length (front ++ [lastp]) = length (p :: rest))
        by (by rewrite Hblocks).
      rewrite length_app in Hl. cbn [length] in Hl. lia. }
    cbn [deliver].
    erewrite (receiveData_eot cfg kind _ [] (Block lastp)); cycle 1.
    { cbn [blockNumber packagedBuffer]. rewrite Hn.
      pose proof (at_index_queue_last cfg front lastp Hstart) as Hlast.
      rewrite length_app in Hlast. cbn [length] in Hlast.
      rewrite Hblocks in Hlast.
      by replace (XMODEM_START_BLOCK cfg + Z.of_nat (length front + 1) - 1)
        with (XMODEM_START_BLOCK cfg + Z.of_nat (length front)) in Hlast
        by lia. }
    cbn [blockNumber packagedBuffer transfer_initiated tryCounter
         XMODEM_OP_MODE].
    rewrite Hn. fold written.
    assert (Hrm : existsb is_remove_listener
                    ([SocketWrite [ACK]; WriteFile written]
                       ++ fst (finish kind)) = true)
      by (by destruct kind).
    rewrite Hrm. cbn [fst snd length replicate app].
    do 2 f_equal. by destruct rest.
Qed.

(** X6. A receiver that has accepted nothing yet, with a budget of at least
    one error, given the frames of the blocks of a queue in order, one
    frame a chunk, and then EOT: it stops the probing timer, answers every
    frame and the EOT with ACK, and hands the storage writer the sender's
    queue with the scan for trailing filler applied to the last block; then
    it tears the transport down and removes its listener. *)
Theorem receiver_stores_blocks_in_order
    (cfg : config) (kind : transport) (m : op_mode)
    (front : list (list Z)) (lastp : list Z) :
  0 <= XMODEM_START_BLOCK cfg ->
  1 <= XMODEM_MAX_ERRORS cfg ->
  Forall (well_formed_block cfg) (front ++ [lastp]) ->
  let written :=
    trim_last (queue_of cfg (front ++ [lastp]))
      (XMODEM_START_BLOCK cfg + Z.of_nat (length front)) (Block lastp) in
  deliver (receiveData cfg kind)
    (Vars (XMODEM_START_BLOCK cfg) (queue_of cfg []) false 0 m)
    (block_frames (XMODEM_START_BLOCK cfg) m (front ++ [lastp]) ++ [[EOT]])
  = ([ClearInterval]
       ++ replicate (length (front ++ [lastp])) (SocketWrite [ACK])
       ++ [SocketWrite [ACK]; WriteFile written] ++ fst (finish kind),
     Some (Vars (XMODEM_START_BLOCK cfg + Z.of_nat (length front)) written
             true 1 m)).
Proof. apply receiver_run_to_eot. Qed.

End ReceiverRun.

(** ** A whole transfer *)

Section Transfer.

Lemma file_bytes_app b1 b2 : file_bytes (b1 ++ b2) = file_bytes b1 ++ file_bytes b2.
Proof. unfold file_bytes. by rewrite map_app, concat_app. Qed.

Lemma file_bytes_placeholders n : file_bytes (replicate n Placeholder) = [].
Proof. induction n as [|n IH]; [done|]. exact IH. Qed.

Lemma file_bytes_blocks blocks : file_bytes (map Block blocks) = concat blocks.
Proof.
  unfold file_bytes. induction blocks as [|p blocks IH]; [done|].
  cbn. by rewrite IH.
Qed.

Lemma file_bytes_queue cfg blocks :
  file_bytes (queue_of cfg blocks) = concat blocks.
Proof.
  unfold queue_of.
  by rewrite file_bytes_app, file_bytes_placeholders, file_bytes_blocks.
Qed.

Lemma Forall_concat_inv {A} (P : A -> Prop) (ls : list (list A)) :
  Forall P (concat ls) -> Forall (Forall P) ls.
Proof.
  induction ls as [|l ls IH]; [by constructor|].
  cbn [concat]. intros [Hl Hls]%Forall_app. constructor; auto.
Qed.

(** The last block of a padded payload: the end of the payload, then the
    filler bytes. *)
Lemma last_block_shape (blocks : list (list Z)) (d : list Z) (K n : nat) :
  concat blocks = d ++ replicate K FILLER ->
  Forall (fun p => length p = n) blocks ->
  (K < n)%nat ->
  d <> [] ->
  exists front tail,
    blocks = front ++ [tail ++ replicate K FILLER]
    /\ concat front ++ tail = d
    /\ tail <> [].
Proof.
  intros Hcat Hlen HK Hd.
  destruct (decide (blocks = [])) as [->|Hne].
  { cbn in Hcat. by destruct d. }
  destruct (exists_last Hne) as (front & lastp & ->).
  apply Forall_app in Hlen as [_ Hlast].
  apply Forall_inv in Hlast.
  rewrite concat_app in Hcat. cbn [concat] in Hcat.
  rewrite app_nil_r in Hcat.
  rewrite <- (take_drop (n - K) lastp), app_assoc in Hcat.
  apply app_inj_2 in Hcat as [Hfront Htail];
    [|rewrite length_drop, length_replicate; lia].
  exists front, (take (n - K) lastp). repeat split.
  - by rewrite <- Htail, take_drop.
  - done.
  - intros Hnil. apply (f_equal length) in Hnil.
    rewrite length_take in Hnil. cbn in Hnil. lia.
Qed.

Lemma padding_after_last_byte bs (len k : nat) :
  0 < bs ->
  Z.of_nat len mod bs + Z.of_nat k < bs ->
  (k + padding bs (len + 1 + k) < Z.to_nat bs)%nat.
Proof.
  intros Hbs Hk. unfold padding.
  pose proof (Z.div_mod (Z.of_nat len) bs ltac:(lia)) as Hdm.
  pose proof (Z.mod_pos_bound (Z.of_nat len) bs Hbs) as Hr.
  set (q := Z.of_nat len / bs) in *. set (r := Z.of_nat len mod bs) in *.
  assert (Hpad : (- Z.of_nat (len + 1 + k)) mod bs
                 = (bs - (r + 1 + Z.of_nat k)) mod bs).
  { replace (- Z.of_nat (len + 1 + k))
      with ((bs - (r + 1 + Z.of_nat k)) + (- (q + 1)) * bs) by nia.
    apply Z_mod_plus_full. }
  rewrite Hpad.
  destruct (decide (r + 1 + Z.of_nat k = bs)) as [Heq|Hne].
  - replace (bs - (r + 1 + Z.of_nat k)) with 0 by lia.
    rewrite Z.mod_0_l by lia. lia.
  - rewrite Z.mod_small by lia. lia.
Qed.

Lemma insert_queue_last cfg front (lastp p' : list Z) :
  0 <= XMODEM_START_BLOCK cfg ->
  <[Z.to_nat (XMODEM_START_BLOCK cfg + Z.of_nat (length front))
      := Block p']> (queue_of cfg (front ++ [lastp]))
  = queue_of cfg (front ++ [p']).
Proof.
  intros Hstart. unfold queue_of. rewrite !map_app. cbn [map].
  rewrite insert_app_r_alt by (rewrite length_replicate; lia).
  rewrite length_replicate.
  rewrite insert_app_r_alt by (rewrite length_map; lia).
  rewrite length_map.
  by replace (_ - _ - _)%nat with 0%nat by lia.
Qed.

Lemma receive_vars cfg m :
  snd (Receiver.receive cfg m)
  = Some (Receiver.Vars (XMODEM_START_BLOCK cfg)
            (replicate (Z.to_nat (XMODEM_START_BLOCK cfg)) Placeholder)
            false 0 m).
Proof. by destruct m. Qed.

Lemma bytes_filler n : bytes (replicate n FILLER).
Proof.
  apply Forall_forall. intros x [-> _]%elem_of_replicate.
  unfold is_byte, FILLER. lia.
Qed.

(** X7. A whole transfer. The payload is not empty and ends, after its
    last byte that is not the filler byte, with [k] filler bytes of its own
    that still fit in the block of that byte ([k] may be 0). The sender
    packages it; the receiver, in mode [m], has probed with the byte of
    its mode; every frame and the EOT reach the receiver as one chunk each
    and are answered with ACK. Then the sender completes with [stop] 0 and
    the bytes the receiver hands to the storage writer are the payload up
    to that last byte: the whole payload when it does not end with the
    filler byte, and the payload without its trailing filler bytes
    otherwise. *)
Theorem transfer_delivers_payload
    (cfg : config) (kind : transport) (mode0 m : op_mode)
    (body : list Z) (b : Z) (k : nat) :
  0 < block_size cfg ->
  0 <= XMODEM_START_BLOCK cfg ->
  1 <= XMODEM_MAX_ERRORS cfg ->
  bytes (body ++ [b]) ->
  b <> FILLER ->
  Z.of_nat (length body) mod block_size cfg + Z.of_nat k < block_size cfg ->
  exists st0 r0 n ts st1 tr st2 buf,
    snd (Sender.send cfg mode0 (body ++ [b] ++ replicate k FILLER)) = Some st0
    /\ snd (Receiver.receive cfg m) = Some r0
    /\ deliver (Sender.sendData cfg) st0
         ([probe_byte m] :: replicate n [ACK]) = (ts, Some st1)
    /\ In (Emit (Stop 0)) ts
    /\ deliver (Receiver.receiveData cfg kind) r0 (socket_writes ts)
       = (tr, Some st2)
    /\ In (WriteFile buf) tr
    /\ file_bytes buf = body ++ [b].
Proof.
  intros Hbs Hstart Hmax Hbytes Hb Hk.
  destruct (send_packaging cfg mode0
              (body ++ [b] ++ replicate k FILLER) Hbs)
    as (blocks & Hsend & Hcat & Hlen & _).
  set (pad := padding (block_size cfg)
                (length (body ++ [b] ++ replicate k FILLER))) in *.
  assert (Hcat' : concat blocks
                  = (body ++ [b]) ++ replicate (k + pad) FILLER).
  { rewrite Hcat, replicate_add. by rewrite <- !app_assoc. }
  assert (HK : (k + pad < Z.to_nat (block_size cfg))%nat).
  { subst pad. rewrite !length_app, length_replicate. cbn [length].
    replace (length body + (1 + k))%nat with (length body + 1 + k)%nat by lia.
    by apply padding_after_last_byte. }
  destruct (last_block_shape blocks (body ++ [b]) (k + pad)
              (Z.to_nat (block_size cfg)) Hcat')
    as (front & tail & Hblocks & Hfront & Htail).
  { eapply Forall_impl; [exact Hlen|]. cbn. intros p Hp. lia. }
  { done. }
  { by destruct body. }
  destruct (exists_last Htail) as (pre & b' & ->).
  rewrite app_assoc in Hfront.
  apply app_inj_2 in Hfront as [Hpre [= ->]]; [|done].
  assert (Hlast : (pre ++ [b]) ++ replicate (k + pad) FILLER
                  = pre ++ b :: replicate (k + pad) FILLER)
    by (by rewrite <- app_assoc).
  rewrite Hlast in Hblocks. clear Hlast.
  assert (Hwf : Forall (well_formed_block cfg) blocks).
  { assert (Hbb : Forall bytes blocks).
    { apply Forall_concat_inv. unfold bytes in *. rewrite Hcat'.
      apply Forall_app. split; [done | apply bytes_filler]. }
    apply Forall_forall. intros p Hp. split.
    - by eapply (proj1 (Forall_forall _ _) Hbb).
    - by eapply (proj1 (Forall_forall _ _) Hlen). }
  (* the sender *)
  destruct blocks as [|p0 rest0] eqn:Hb0; [by destruct front|].
  destruct (sender_run_to_completion cfg mode0 m (probe_byte m) p0 rest0
              Hstart) as [Hrun Hwrites]; [by destruct m|].
  rewrite Hrun in Hwrites. cbn [fst] in Hwrites.
  (* the receiver *)
  pose proof (receiver_run_to_eot cfg kind m front
                (pre ++ b :: replicate (k + pad) FILLER) Hstart Hmax) as Hrecv.
  rewrite Hblocks in Hwf. specialize (Hrecv Hwf). cbv zeta in Hrecv.
  rewrite trim_last_data, insert_queue_last in Hrecv by done.
  rewrite Hblocks in Hwrites.
  eexists _, _, _, _, _, _, _, _.
  split; [by rewrite Hsend|].
  split; [apply receive_vars|].
  split.
  { replace (replicate (length rest0) [ACK] ++ [[ACK]; [ACK]])
      with (replicate (length rest0 + 2) [ACK]) in Hrun
      by (by rewrite replicate_add).
    exact Hrun. }
  split.
  { rewrite !in_app_iff. do 3 right. cbn. auto. }
  split.
  { rewrite Hwrites.
    replace (replicate (Z.to_nat (XMODEM_START_BLOCK cfg)) Placeholder)
      with (queue_of cfg []) by (unfold queue_of; apply app_nil_r).
    exact Hrecv. }
  split.
  { rewrite !in_app_iff. right. right. left. cbn. auto. }
  rewrite file_bytes_queue, concat_app. cbn [concat].
  by rewrite app_nil_r, app_assoc, Hpre.
Qed.

Lemma transfer_delivers_payload_witness :
  exists st0 r0 n ts st1 tr st2 buf,
    snd (Sender.send default_config Crc
           ([0x41; 0x42] ++ [0x43] ++ replicate 2 FILLER)) = Some st0
    /\ snd (Receiver.receive default_config Crc) = Some r0
    /\ deliver (Sender.sendData default_config) st0
         ([probe_byte Crc] :: replicate n [ACK]) = (ts, Some st1)
    /\ In (Emit (Stop 0)) ts
    /\ deliver (Receiver.receiveData default_config NetSocket) r0
         (socket_writes ts) = (tr, Some st2)
    /\ In (WriteFile buf) tr
    /\ file_bytes buf = [0x41; 0x42] ++ [0x43].
Proof.
  apply (transfer_delivers_payload default_config NetSocket Crc Crc
           [0x41; 0x42] 0x43 2).
  - reflexivity.
  - discriminate.
  - discriminate.
  - repeat constructor; unfold is_byte; lia.
  - discriminate.
  - reflexivity.
Defined.

End Transfer.

(** ** What the receiver does with chunks it does not accept *)

Section ReceiverEdges.

Import Receiver.

Lemma receiver_stores_blocks_in_order_witness :
  deliver (receiveData (Config 1 5 10 3 10 2) SerialPort)
    (Vars 1 (queue_of (Config 1 5 10 3 10 2) []) false 0 Normal)
    (block_frames 1 Normal ([[0x41; 0x42]] ++ [[0x43; FILLER]]) ++ [[EOT]])
  = ([ClearInterval]
       ++ replicate 2 (SocketWrite [ACK])
       ++ [SocketWrite [ACK];
           WriteFile [Placeholder; Block [0x41; 0x42]; Block [0x43]]]
       ++ [SocketClose; RemoveListener],
     Some (Vars 2 [Placeholder; Block [0x41; 0x42]; Block [0x43]]
             true 1 Normal)).
Proof.
  apply (receiver_stores_blocks_in_order (Config 1 5 10 3 10 2) SerialPort
           Normal [[0x41; 0x42]] [0x43; FILLER]).
  - discriminate.
  - discriminate.
  - repeat constructor; unfold is_byte, FILLER; lia.
Defined.

(** X8. A frame of a block other than the expected one modulo 256, for
    instance the frame just accepted when the sender repeats it, gets no
    answer at all, neither ACK nor NAK; nothing is stored and the expected
    block stays, but the chunk counts against the error budget. *)
Theorem out_of_sequence_frame_gets_no_answer
    (cfg : config) (kind : transport) (st : vars)
    (j : Z) (p : list Z) (mode : op_mode) :
  0 <= j ->
  0 <= blockNumber st ->
  j mod 256 <> blockNumber st mod 256 ->
  bytes p ->
  exists t ti,
    receiveData cfg kind st (sendBlock_frame j p mode)
    = (t, Some (Vars (blockNumber st) (packagedBuffer st) ti
                  (tryCounter st + 1) (XMODEM_OP_MODE st)))
    /\ socket_writes t = [].
Proof.
  intros Hj Hbn Hneq Hb.
  destruct (sendBlock_frame_shape j p mode Hb) as (tr & -> & _).
  unfold receiveData. rewrite at_index_0.
  change (strict_eq (Some SOH) NAK) with false.
  change (strict_eq (Some SOH) SOH) with true.
  change (strict_eq (Some SOH) EOT) with false.
  cbn [andb blockNumber packagedBuffer transfer_initiated tryCounter
       XMODEM_OP_MODE].
  destruct (tryCounter st + 1 <=? XMODEM_MAX_ERRORS cfg).
  - assert (Hblock : forall m bs,
      receiveBlock (blockNumber st)
        (SOH :: to_uint8 j :: to_uint8 (255 - j) :: p ++ tr) bs m
      = ([], OutOfSync)).
    { intros m bs. unfold receiveBlock.
      rewrite at_index_0, at_index_1, at_index_2.
      cbn [parseInt strict_eq sum_eq].
      rewrite Z.eqb_refl, (proj2 (Z.eqb_eq _ _) (to_uint8_complement j)).
      rewrite (proj2 (Z.eqb_neq _ _)); [done|].
      unfold to_uint8. rewrite Z.rem_mod_nonneg by lia. done. }
    unfold initiate.
    cbn [blockNumber packagedBuffer transfer_initiated tryCounter
         XMODEM_OP_MODE].
    destruct (transfer_initiated st); cbn [negb bind ret tell];
      cbn [blockNumber packagedBuffer transfer_initiated tryCounter
           XMODEM_OP_MODE];
      rewrite Hblock; by eexists _, _.
  - by eexists _, _.
Qed.

Lemma out_of_sequence_frame_gets_no_answer_witness :
  exists t ti,
    receiveData default_config NetSocket
      (Vars 2 [Placeholder; Block (replicate 128 0x41)] true 0 Crc)
      (sendBlock_frame 1 (replicate 128 0x41) Crc)
    = (t, Some (Vars 2 [Placeholder; Block (replicate 128 0x41)] ti 1 Crc))
    /\ socket_writes t = [].
Proof.
  apply (out_of_sequence_frame_gets_no_answer default_config NetSocket
           (Vars 2 [Placeholder; Block (replicate 128 0x41)] true 0 Crc)
           1 (replicate 128 0x41) Crc).
  - discriminate.
  - discriminate.
  - discriminate.
  - apply Forall_forall. intros x [-> _]%elem_of_replicate.
    unfold is_byte. lia.
Defined.

(** A chunk that is neither a block nor EOT, and any chunk but EOT once
    the budget is spent: no effect, one more on the counter. *)
Lemma receiveData_ignored cfg kind st data :
  strict_eq (at_index data 0) EOT = false ->
  strict_eq (at_index data 0) SOH = false
  \/ XMODEM_MAX_ERRORS cfg <= tryCounter st ->
  receiveData cfg kind st data
  = ([], Some (Vars (blockNumber st) (packagedBuffer st)
                 (transfer_initiated st) (tryCounter st + 1)
                 (XMODEM_OP_MODE st))).
Proof.
  intros Heot Hskip. unfold receiveData.
  cbn [blockNumber packagedBuffer transfer_initiated tryCounter
       XMODEM_OP_MODE].
  rewrite Heot.
  assert (Hsoh : strict_eq (at_index data 0) SOH
                 && (tryCounter st + 1 <=? XMODEM_MAX_ERRORS cfg) = false).
  { destruct Hskip as [->|Hmax]; [done|].
    rewrite (proj2 (Z.leb_gt _ _)) by lia. apply andb_false_r. }
  rewrite Hsoh.
  by destruct (strict_eq (at_index data 0) NAK
               && (blockNumber st =? XMODEM_START_BLOCK cfg)).
Qed.

(** X9. The counter the receiver compares with [XMODEM_MAX_ERRORS] counts
    every inbound chunk, not only rejected blocks, and only an accepted
    block resets it. So after stray chunks (first byte neither SOH nor EOT,
    a NAK or a C for instance) that bring the counter to
    [XMODEM_MAX_ERRORS], the receiver ignores whatever follows short of
    EOT, well-formed blocks included: it writes nothing, stores nothing
    and still expects the same block. *)
Theorem receiver_deaf_once_budget_spent
    (cfg : config) (kind : transport) (st : vars)
    (strays rest : list (list Z)) :
  0 <= tryCounter st ->
  Forall stray strays ->
  XMODEM_MAX_ERRORS cfg <= tryCounter st + Z.of_nat (length strays) ->
  Forall (fun data => strict_eq (at_index data 0) EOT = false) rest ->
  deliver (receiveData cfg kind) st (strays ++ rest)
  = ([], Some (Vars (blockNumber st) (packagedBuffer st)
                 (transfer_initiated st)
                 (tryCounter st + Z.of_nat (length (strays ++ rest)))
                 (XMODEM_OP_MODE st))).
Proof.
  intros Htry Hstrays Hmax Hrest.
  assert (Hrun : forall chunks st,
    Forall (fun data =>
              strict_eq (at_index data 0) EOT = false
              /\ (strict_eq (at_index data 0) SOH = false
                  \/ XMODEM_MAX_ERRORS cfg <= tryCounter st)) chunks ->
    deliver (receiveData cfg kind) st chunks
    = ([], Some (Vars (blockNumber st) (packagedBuffer st)
                   (transfer_initiated st)
                   (tryCounter st + Z.of_nat (length chunks))
                   (XMODEM_OP_MODE st)))).
  { clear. induction chunks as [|data chunks IH]; intros st Hall.
    - cbn. rewrite Z.add_0_r. by destruct st.
    - apply Forall_cons in Hall as [[Heot Hskip] Hall].
      cbn [deliver]. rewrite receiveData_ignored by done.
      cbn [existsb]. rewrite IH.
      + cbn [blockNumber packagedBuffer transfer_initiated tryCounter
             XMODEM_OP_MODE app length].
        do 3 f_equal. lia.
      + eapply Forall_impl; [exact Hall|].
        cbn. intros d [? [?|?]]; split; auto. right. lia. }
  assert (Hfirst := Hrun strays st).
  assert (Hsecond := Hrun rest
    (Vars (blockNumber st) (packagedBuffer st) (transfer_initiated st)
       (tryCounter st + Z.of_nat (length strays)) (XMODEM_OP_MODE st))).
  cbn [blockNumber packagedBuffer transfer_initiated tryCounter
       XMODEM_OP_MODE] in Hsecond.
  erewrite deliver_app_continue; cycle 1.
  - apply Hfirst. eapply Forall_impl; [exact Hstrays|].
    cbn. intros d [? ?]. auto.
  - reflexivity.
  - rewrite Hsecond.
    + cbn [app fst snd]. rewrite length_app. do 3 f_equal. lia.
    + eapply Forall_impl; [exact Hrest|]. cbn. auto.
Qed.

End ReceiverEdges.

(** ** The probing of the receiver *)

Section ProbingSchedule.

Import Probing.

Lemma bind_assoc {A B C} (m : Eff A) (f : A -> Eff B) (g : B -> Eff C) :
  bind (bind m f) g = bind m (fun a => bind (f a) g).
Proof.
  destruct m as [t [a|]]; [|done]. cbn.
  destruct (f a) as [t1 [b|]]; cbn; [|done].
  destruct (g b) as [t2 r]. by rewrite app_assoc.
Qed.

Lemma bind_value {A B} t (a : A) (f : A -> Eff B) :
  bind (t, Some a) f = (t ++ fst (f a), snd (f a)).
Proof. cbn. by destruct (f a). Qed.

Lemma react_app cfg kind evs more : forall s,
  react cfg kind s (evs ++ more)
  = bind (react cfg kind s evs) (fun s' => react cfg kind s' more).
Proof.
  induction evs as [|ev evs IH]; intros s.
  - cbn. by destruct (react cfg kind s more).
  - cbn [react app]. rewrite bind_assoc.
    destruct (on_event cfg kind s ev) as [t [s1|]]; [|done].
    cbn [bind]. by rewrite IH.
Qed.

Lemma fire_crc cfg v c R l :
  uninitiated v ->
  fire cfg (Session v (Some (Interval CrcProbe c R)) l)
  = if c + 1 =? R
    then ([ClearInterval; SocketWrite [CRC_MODE]],
          Some (Session v (Some (Interval NakProbe 0 (nak_tick cfg))) l))
    else ([SocketWrite [CRC_MODE]],
          Some (Session v (Some (Interval CrcProbe (c + 1) R)) l)).
Proof.
  intros Hv. unfold fire, crc_callback.
  cbn [receive_interval_timer x repetitions callback vars listening].
  rewrite Hv. by destruct (c + 1 =? R).
Qed.

Lemma fire_nak cfg v y N l :
  fire cfg (Session v (Some (Interval NakProbe y N)) l)
  = if y + 1 =? N
    then ([ClearInterval; SocketWrite [NAK]],
          Some (Session (normal_vars v) None l))
    else ([SocketWrite [NAK]],
          Some (Session (normal_vars v) (Some (Interval NakProbe (y + 1) N)) l)).
Proof.
  unfold fire, nak_callback.
  cbn [receive_interval_timer x repetitions callback vars listening].
  by destruct (y + 1 =? N).
Qed.

Lemma react_fires_idle cfg kind v l n :
  react cfg kind (Session v None l) (replicate n TimerFires)
  = ([], Some (Session v None l)).
Proof. induction n as [|n IH]; [done|]. cbn [replicate react]. cbn. by rewrite IH. Qed.

(** Firings of the C interval before its last one. *)
Lemma react_crc_fires cfg kind v R l : forall n c,
  uninitiated v ->
  0 <= c ->
  c + Z.of_nat n < R ->
  react cfg kind (Session v (Some (Interval CrcProbe c R)) l)
    (replicate n TimerFires)
  = (replicate n (SocketWrite [CRC_MODE]),
     Some (Session v (Some (Interval CrcProbe (c + Z.of_nat n) R)) l)).
Proof.
  induction n as [|n IH]; intros c Hv Hc Hlt.
  - cbn. by rewrite Z.add_0_r.
  - cbn [replicate react on_event]. rewrite fire_crc by done.
    rewrite (proj2 (Z.eqb_neq _ _)) by lia.
    rewrite bind_value, IH by (done || lia).
    cbn [fst snd app]. do 5 f_equal. lia.
Qed.

(** Firings of the C interval that never reach [repetitions]. *)
Lemma react_crc_fires_unbounded cfg kind v R l : forall n c,
  uninitiated v ->
  R <= c ->
  react cfg kind (Session v (Some (Interval CrcProbe c R)) l)
    (replicate n TimerFires)
  = (replicate n (SocketWrite [CRC_MODE]),
     Some (Session v (Some (Interval CrcProbe (c + Z.of_nat n) R)) l)).
Proof.
  induction n as [|n IH]; intros c Hv Hc.
  - cbn. by rewrite Z.add_0_r.
  - cbn [replicate react on_event]. rewrite fire_crc by done.
    rewrite (proj2 (Z.eqb_neq _ _)) by lia.
    rewrite bind_value, IH by (done || lia).
    cbn [fst snd app]. do 5 f_equal. lia.
Qed.

(** Firings of the NAK interval before its last one. *)
Lemma react_nak_fires cfg kind N l : forall n v y,
  0 <= y ->
  y + Z.of_nat n < N ->
  react cfg kind (Session v (Some (Interval NakProbe y N)) l)
    (replicate n TimerFires)
  = (replicate n (SocketWrite [NAK]),
     Some (Session (match n with O => v | _ => normal_vars v end)
             (Some (Interval NakProbe (y + Z.of_nat n) N)) l)).
Proof.
  induction n as [|n IH]; intros v y Hy Hlt.
  - cbn. by rewrite Z.add_0_r.
  - cbn [replicate react on_event]. rewrite fire_nak.
    rewrite (proj2 (Z.eqb_neq _ _)) by lia.
    rewrite bind_value, IH by lia.
    cbn [fst snd app]. f_equal. f_equal.
    replace (y + 1 + Z.of_nat n) with (y + Z.of_nat (S n)) by lia.
    by destruct n.
Qed.

Lemma socket_writes_replicate n w :
  socket_writes (replicate n (SocketWrite w)) = replicate n w.
Proof. induction n as [|n IH]; [done|]. cbn. by f_equal. Qed.

Lemma replicate_snoc_fires (n : nat) :
  (0 < n)%nat ->
  replicate n TimerFires = replicate (n - 1) TimerFires ++ [TimerFires].
Proof.
  intros Hn. replace n with (n - 1 + 1)%nat at 1 by lia.
  by rewrite replicate_add.
Qed.

(** The whole C interval: it probes at each firing and starts the NAK
    interval at the last one. *)
Lemma react_crc_phase cfg kind v R l :
  uninitiated v ->
  1 <= R ->
  react cfg kind (Session v (Some (Interval CrcProbe 0 R)) l)
    (replicate (Z.to_nat R) TimerFires)
  = (replicate (Z.to_nat R - 1) (SocketWrite [CRC_MODE])
       ++ [ClearInterval; SocketWrite [CRC_MODE]],
     Some (Session v (Some (Interval NakProbe 0 (nak_tick cfg))) l)).
Proof.
  intros Hv HR. rewrite replicate_snoc_fires, react_app by lia.
  rewrite react_crc_fires by (done || lia).
  rewrite bind_value. cbn [react on_event].
  rewrite fire_crc by done.
  rewrite (proj2 (Z.eqb_eq _ _)) by lia. reflexivity.
Qed.

(** The whole NAK interval. *)
Lemma react_nak_phase cfg kind v N l :
  1 <= N ->
  react cfg kind (Session v (Some (Interval NakProbe 0 N)) l)
    (replicate (Z.to_nat N) TimerFires)
  = (replicate (Z.to_nat N - 1) (SocketWrite [NAK])
       ++ [ClearInterval; SocketWrite [NAK]],
     Some (Session (normal_vars v) None l)).
Proof.
  intros HN. rewrite replicate_snoc_fires, react_app by lia.
  rewrite react_nak_fires by lia.
  rewrite bind_value. cbn [react on_event].
  rewrite fire_nak.
  rewrite (proj2 (Z.eqb_eq _ _)) by lia.
  cbn [bind ret fst snd]. rewrite app_nil_r.
  by destruct (Z.to_nat N - 1)%nat.
Qed.

Lemma receive_crc cfg :
  receive cfg Crc
  = ([SocketWrite [CRC_MODE]],
     Some (Session
             (Receiver.Vars (XMODEM_START_BLOCK cfg)
                (replicate (Z.to_nat (XMODEM_START_BLOCK cfg)) Placeholder)
                false 0 Crc)
             (Some (Interval CrcProbe 0 (crc_tick cfg - 1))) true)).
Proof. reflexivity. Qed.

Lemma receive_normal cfg :
  receive cfg Normal
  = ([],
     Some (Session
             (Receiver.Vars (XMODEM_START_BLOCK cfg)
                (replicate (Z.to_nat (XMODEM_START_BLOCK cfg)) Placeholder)
                false 0 Normal)
             (Some (Interval NakProbe 0 (nak_tick cfg))) true)).
Proof. reflexivity. Qed.

(** X10. The probing of a receiver that starts in crc mode and hears
    nothing, when at least two CRC attempts and one NAK firing are
    configured: it writes C once at once and once at each of the next
    [XMODEM_CRC_ATTEMPTS - 1] firings, then sets the mode to checksum and
    writes NAK at each of the next [XMODEM_MAX_ERRORS * timeout_seconds * 3]
    firings, and after that no interval is left: it stays silent. *)
Theorem crc_probing_falls_back_to_nak
    (cfg : config) (kind : transport) (more : nat) :
  2 <= XMODEM_CRC_ATTEMPTS cfg ->
  1 <= nak_tick cfg ->
  exists t v,
    bind (receive cfg Crc) (fun s =>
      react cfg kind s
        (replicate (Z.to_nat (XMODEM_CRC_ATTEMPTS cfg - 1)) TimerFires
           ++ replicate (Z.to_nat (nak_tick cfg)) TimerFires
           ++ replicate more TimerFires))
    = (t, Some (Session v None true))
    /\ socket_writes t
       = replicate (Z.to_nat (XMODEM_CRC_ATTEMPTS cfg)) [CRC_MODE]
           ++ replicate (Z.to_nat (nak_tick cfg)) [NAK]
    /\ Receiver.XMODEM_OP_MODE v = Normal
    /\ Receiver.transfer_initiated v = false.
Proof.
  intros HA HN. rewrite receive_crc, bind_value.
  rewrite react_app. unfold crc_tick.
  rewrite react_crc_phase by (done || lia).
  rewrite bind_value, react_app.
  rewrite react_nak_phase by done.
  rewrite bind_value, react_fires_idle.
  cbn [fst snd]. eexists _, _. split; [reflexivity|].
  split; [|done].
  rewrite !socket_writes_app, !socket_writes_replicate. cbn.
  rewrite app_nil_r.
  replace (Z.to_nat (XMODEM_CRC_ATTEMPTS cfg))
    with (S (Z.to_nat (XMODEM_CRC_ATTEMPTS cfg - 1) - 1 + 1)) by lia.
  replace (Z.to_nat (nak_tick cfg))
    with (Z.to_nat (nak_tick cfg) - 1 + 1)%nat at 2 by lia.
  rewrite !replicate_add. cbn [replicate].
  rewrite ?replicate_add. reflexivity.
Qed.

Lemma crc_probing_falls_back_to_nak_witness :
  exists t v,
    bind (receive default_config Crc) (fun s =>
      react default_config NetSocket s
        (replicate 2 TimerFires ++ replicate 300 TimerFires
           ++ replicate 5 TimerFires))
    = (t, Some (Session v None true))
    /\ socket_writes t = replicate 3 [CRC_MODE] ++ replicate 300 [NAK]
    /\ Receiver.XMODEM_OP_MODE v = Normal
    /\ Receiver.transfer_initiated v = false.
Proof.
  apply (crc_probing_falls_back_to_nak default_config NetSocket 5);
    discriminate.
Defined.

(** X11. With [XMODEM_CRC_ATTEMPTS] at 1 or less the count of the C
    interval, [XMODEM_CRC_ATTEMPTS - 1], is never reached by [++x]: the
    interval is never cleared, the receiver writes C at every firing for
    ever and never falls back to NAK. *)
Theorem crc_probing_never_ends_with_one_attempt
    (cfg : config) (kind : transport) (n : nat) :
  XMODEM_CRC_ATTEMPTS cfg <= 1 ->
  exists v,
    bind (receive cfg Crc) (fun s => react cfg kind s (replicate n TimerFires))
    = (replicate (S n) (SocketWrite [CRC_MODE]),
       Some (Session v
               (Some (Interval CrcProbe (Z.of_nat n)
                        (XMODEM_CRC_ATTEMPTS cfg - 1))) true))
    /\ Receiver.XMODEM_OP_MODE v = Crc.
Proof.
  intros HA. rewrite receive_crc, bind_value. unfold crc_tick.
  rewrite react_crc_fires_unbounded by (done || lia).
  eexists. split; [reflexivity|done].
Qed.

Lemma crc_probing_never_ends_with_one_attempt_witness :
  exists v,
    bind (receive (Config 1 5 10 1 10 128) Crc)
      (fun s => react (Config 1 5 10 1 10 128) NetSocket s
                  (replicate 7 TimerFires))
    = (replicate 8 (SocketWrite [CRC_MODE]),
       Some (Session v (Some (Interval CrcProbe 7 0)) true))
    /\ Receiver.XMODEM_OP_MODE v = Crc.
Proof.
  apply (crc_probing_never_ends_with_one_attempt (Config 1 5 10 1 10 128)
           NetSocket 7).
  discriminate.
Defined.

End ProbingSchedule.

Section ProbingAndData.

Import Probing.

(** X12. A receiver that starts in checksum mode writes nothing at once,
    one NAK at each of the first [XMODEM_MAX_ERRORS * timeout_seconds * 3]
    firings, and nothing after them. *)
Theorem nak_probing_is_bounded
    (cfg : config) (kind : transport) (more : nat) :
  1 <= nak_tick cfg ->
  exists t v,
    bind (receive cfg Normal) (fun s =>
      react cfg kind s
        (replicate (Z.to_nat (nak_tick cfg)) TimerFires
           ++ replicate more TimerFires))
    = (t, Some (Session v None true))
    /\ socket_writes t = replicate (Z.to_nat (nak_tick cfg)) [NAK]
    /\ Receiver.XMODEM_OP_MODE v = Normal.
Proof.
  intros HN. rewrite receive_normal, bind_value, react_app.
  rewrite react_nak_phase by done.
  rewrite bind_value, react_fires_idle. cbn [fst snd app].
  eexists _, _. split; [reflexivity|]. split; [|done].
  rewrite app_nil_r, socket_writes_app, socket_writes_replicate. cbn.
  replace (Z.to_nat (nak_tick cfg))
    with (Z.to_nat (nak_tick cfg) - 1 + 1)%nat at 2 by lia.
  by rewrite replicate_add.
Qed.

Lemma nak_probing_is_bounded_witness :
  exists t v,
    bind (receive default_config Normal) (fun s =>
      react default_config NetSocket s
        (replicate 300 TimerFires ++ replicate 3 TimerFires))
    = (t, Some (Session v None true))
    /\ socket_writes t = replicate 300 [NAK]
    /\ Receiver.XMODEM_OP_MODE v = Normal.
Proof.
  apply (nak_probing_is_bounded default_config NetSocket 3). discriminate.
Defined.

Lemma receiveBlock_written blockNr data bs mode :
  existsb is_remove_listener (fst (receiveBlock blockNr data bs mode)) = false
  /\ existsb is_clear_interval (fst (receiveBlock blockNr data bs mode))
     = false.
Proof.
  unfold receiveBlock, parseInt. cbv zeta.
  destruct (_ =? bs);
    destruct (strict_eq (at_index data 0) SOH);
    destruct (sum_eq (at_index data 1) (at_index data 2) 255);
    destruct (strict_eq (at_index data 1) (Z.rem blockNr 256)); by split.
Qed.

(** The first chunk that starts with SOH, within the budget: the interval
    is cleared before the frame is even looked at. *)
Lemma receiveData_first_block cfg kind v rest :
  uninitiated v ->
  Receiver.tryCounter v + 1 <= XMODEM_MAX_ERRORS cfg ->
  exists t v',
    Receiver.receiveData cfg kind v (SOH :: rest) = (ClearInterval :: t, Some v')
    /\ existsb is_remove_listener t = false.
Proof.
  intros Hv Htry. unfold Receiver.receiveData. rewrite at_index_0.
  change (strict_eq (Some SOH) NAK) with false.
  change (strict_eq (Some SOH) SOH) with true.
  cbn [andb Receiver.blockNumber Receiver.packagedBuffer
       Receiver.transfer_initiated Receiver.tryCounter
       Receiver.XMODEM_OP_MODE].
  rewrite (proj2 (Z.leb_le _ _) Htry).
  unfold Receiver.initiate.
  cbn [Receiver.blockNumber Receiver.packagedBuffer
       Receiver.transfer_initiated Receiver.tryCounter
       Receiver.XMODEM_OP_MODE].
  rewrite Hv. cbn [negb bind tell ret].
  cbn [Receiver.blockNumber Receiver.packagedBuffer
       Receiver.transfer_initiated Receiver.tryCounter
       Receiver.XMODEM_OP_MODE].
  pose proof (receiveBlock_written (Receiver.blockNumber v) (SOH :: rest)
                (block_size cfg) (Receiver.XMODEM_OP_MODE v)) as [Hrm _].
  destruct (receiveBlock _ _ _ _) as [written result]. cbn [fst] in Hrm.
  destruct result; cbn; eexists _, _; (split; [reflexivity|]);
    by rewrite app_nil_r.
Qed.

(** X13. The first chunk that starts with SOH while the budget lasts stops
    the probing, whatever the decoder then makes of the frame (accepted,
    NAKed or dropped): the handler clears the interval first, and no later
    firing writes anything. *)
Theorem first_block_stops_probing
    (cfg : config) (kind : transport) (s : session)
    (rest : list Z) (n : nat) :
  listening s = true ->
  uninitiated (vars s) ->
  Receiver.tryCounter (vars s) + 1 <= XMODEM_MAX_ERRORS cfg ->
  exists v',
    react cfg kind s (ChunkArrives (SOH :: rest) :: replicate n TimerFires)
    = (fst (Receiver.receiveData cfg kind (vars s) (SOH :: rest)),
       Some (Session v' None true))
    /\ snd (Receiver.receiveData cfg kind (vars s) (SOH :: rest)) = Some v'
    /\ In ClearInterval
         (fst (Receiver.receiveData cfg kind (vars s) (SOH :: rest))).
Proof.
  intros Hl Hv Htry.
  destruct (receiveData_first_block cfg kind (vars s) rest Hv Htry)
    as (t & v' & Hrun & Hrm).
  exists v'. cbn [react on_event]. unfold on_data.
  rewrite Hl, Hrun. cbn [existsb is_clear_interval is_remove_listener orb].
  rewrite Hrm. cbn [negb]. rewrite bind_value, react_fires_idle.
  cbn [fst snd]. rewrite app_nil_r. repeat split. by left.
Qed.

Lemma first_block_stops_probing_witness :
  exists v',
    react default_config NetSocket
      (Session (Receiver.Vars 1 [Placeholder] false 0 Crc)
         (Some (Interval CrcProbe 0 2)) true)
      (ChunkArrives (SOH :: [1; 1]) :: replicate 4 TimerFires)
    = (fst (Receiver.receiveData default_config NetSocket
              (Receiver.Vars 1 [Placeholder] false 0 Crc) (SOH :: [1; 1])),
       Some (Session v' None true))
    /\ snd (Receiver.receiveData default_config NetSocket
              (Receiver.Vars 1 [Placeholder] false 0 Crc) (SOH :: [1; 1]))
       = Some v'
    /\ In ClearInterval
         (fst (Receiver.receiveData default_config NetSocket
                 (Receiver.Vars 1 [Placeholder] false 0 Crc) (SOH :: [1; 1]))).
Proof.
  apply (first_block_stops_probing default_config NetSocket
           (Session (Receiver.Vars 1 [Placeholder] false 0 Crc)
              (Some (Interval CrcProbe 0 2)) true) [1; 1] 4).
  - reflexivity.
  - reflexivity.
  - discriminate.
Defined.

(** X14. EOT before any block, with a start block of at least 1: the
    handler acknowledges, calls the storage writer, tears the transport
    down and removes itself, but it does not clear the probing interval.
    At the next firing [socket.write] is still called with the probe
    byte of the mode, on the transport that has just been torn down. *)
Theorem early_eot_leaves_probing_on
    (cfg : config) (kind : transport) (m : op_mode) (rest : list Z) :
  1 <= XMODEM_START_BLOCK cfg ->
  exists t1 t2 s',
    bind (receive cfg m) (fun s =>
      react cfg kind s [ChunkArrives (EOT :: rest); TimerFires])
    = (t1 ++ t2, Some s')
    /\ last t1 = Some RemoveListener
    /\ socket_writes t2 = [[probe_byte m]]
    /\ listening s' = false.
Proof.
  intros Hstart.
  assert (Heot : forall ti tc,
    Receiver.receiveData cfg kind
      (Receiver.Vars (XMODEM_START_BLOCK cfg)
         (replicate (Z.to_nat (XMODEM_START_BLOCK cfg)) Placeholder) ti tc m)
      (EOT :: rest)
    = ([SocketWrite [ACK];
        WriteFile (replicate (Z.to_nat (XMODEM_START_BLOCK cfg)) Placeholder)]
         ++ fst (Receiver.finish kind),
       Some (Receiver.Vars (XMODEM_START_BLOCK cfg - 1)
               (replicate (Z.to_nat (XMODEM_START_BLOCK cfg)) Placeholder)
               ti (tc + 1) m))).
  { intros ti tc.
    rewrite (receiveData_eot cfg kind _ rest Placeholder); [done|].
    cbn [Receiver.blockNumber Receiver.packagedBuffer]. unfold at_index.
    destruct (Z.ltb_spec (XMODEM_START_BLOCK cfg - 1) 0) as [?|_]; [lia|].
    apply lookup_replicate_2. lia. }
  assert (Hfin : existsb is_clear_interval (fst (Receiver.finish kind)) = false
                 /\ existsb is_remove_listener (fst (Receiver.finish kind))
                    = true
                 /\ last (fst (Receiver.finish kind)) = Some RemoveListener)
    by (by destruct kind).
  destruct Hfin as (Hci & Hrm & Hlast).
  destruct m.
  - rewrite receive_crc, bind_value. cbn [react on_event]. unfold on_data.
    cbn [listening vars receive_interval_timer]. rewrite Heot.
    cbn [existsb is_clear_interval is_remove_listener orb app].
    rewrite Hci, Hrm. cbn [negb]. rewrite bind_value.
    rewrite fire_crc by done.
    exists ([SocketWrite [CRC_MODE]; SocketWrite [ACK];
             WriteFile (replicate (Z.to_nat (XMODEM_START_BLOCK cfg))
                          Placeholder)]
              ++ fst (Receiver.finish kind)).
    destruct (0 + 1 =? crc_tick cfg - 1);
      eexists _, _; cbn [fst snd bind ret];
      (split; [by rewrite <- !app_assoc|]);
      (split; [by rewrite last_app, Hlast|]); by split.
  - rewrite receive_normal, bind_value. cbn [react on_event]. unfold on_data.
    cbn [listening vars receive_interval_timer]. rewrite Heot.
    cbn [existsb is_clear_interval is_remove_listener orb app].
    rewrite Hci, Hrm. cbn [negb]. rewrite bind_value.
    rewrite fire_nak.
    exists ([SocketWrite [ACK];
             WriteFile (replicate (Z.to_nat (XMODEM_START_BLOCK cfg))
                          Placeholder)]
              ++ fst (Receiver.finish kind)).
    destruct (0 + 1 =? nak_tick cfg);
      eexists _, _; cbn [fst snd bind ret];
      (split; [by rewrite <- !app_assoc|]);
      (split; [by rewrite last_app, Hlast|]); by split.
Qed.

Lemma early_eot_leaves_probing_on_witness :
  exists t1 t2 s',
    bind (receive default_config Crc) (fun s =>
      react default_config NetSocket s [ChunkArrives (EOT :: []); TimerFires])
    = (t1 ++ t2, Some s')
    /\ last t1 = Some RemoveListener
    /\ socket_writes t2 = [[probe_byte Crc]]
    /\ listening s' = false.
Proof.
  apply (early_eot_leaves_probing_on default_config NetSocket
           Crc []).
  discriminate.
Defined.

End ProbingAndData.

(** ** More on the receiver *)

Section ReceiverSafety.

Import Receiver.

Lemma receiver_deaf_once_budget_spent_witness :
  deliver (receiveData (Config 1 5 2 3 10 2) NetSocket)
    (Vars 1 [Placeholder] false 0 Crc)
    ([[NAK]; [CRC_MODE]] ++ [sendBlock_frame 1 [0x41; 0x42] Crc; [ACK]])
  = ([], Some (Vars 1 [Placeholder] false
                 (0 + Z.of_nat (length ([[NAK]; [CRC_MODE]]
                                          ++ [sendBlock_frame 1 [0x41; 0x42] Crc;
                                              [ACK]])))
                 Crc)).
Proof.
  apply (receiver_deaf_once_budget_spent (Config 1 5 2 3 10 2) NetSocket
           (Vars 1 [Placeholder] false 0 Crc) [[NAK]; [CRC_MODE]]
           [sendBlock_frame 1 [0x41; 0x42] Crc; [ACK]]).
  - discriminate.
  - repeat constructor.
  - discriminate.
  - repeat constructor.
Defined.

(** X15. A frame built in the other mode is never accepted: with the right
    block number and a payload, not empty, of the block size, its trailer is one byte
    longer or shorter than the receiver expects, the payload the decoder
    cuts out has the wrong size, and the answer is NAK. *)
Theorem frame_of_other_mode_is_nak
    (blockNr : Z) (p : list Z) (mode mode' : op_mode) :
  0 <= blockNr ->
  bytes p ->
  p <> [] ->
  mode <> mode' ->
  receiveBlock blockNr (sendBlock_frame blockNr p mode')
    (Z.of_nat (length p)) mode
  = ([SocketWrite [NAK]], SizeMismatch).
Proof.
  intros Hbn Hb Hp Hmode.
  destruct (sendBlock_frame_shape blockNr p mode' Hb) as (tr & -> & Htr).
  unfold receiveBlock. rewrite at_index_0, at_index_1, at_index_2.
  cbn [parseInt strict_eq sum_eq].
  rewrite Z.eqb_refl, (proj2 (Z.eqb_eq _ _) (to_uint8_complement blockNr)).
  rewrite (proj2 (Z.eqb_eq (to_uint8 blockNr) (Z.rem blockNr 256)))
    by (unfold to_uint8; symmetry; apply Z.rem_mod_nonneg; lia).
  rewrite buffer_slice_body by apply checksum_length_range.
  rewrite (proj2 (Z.eqb_neq _ _)); [done|].
  rewrite length_take, length_app.
  assert (0 < length p)%nat by (destruct p; [done | cbn; lia]).
  destruct mode, mode'; cbn [checksum_length] in *; try done; lia.
Qed.

Lemma frame_of_other_mode_is_nak_witness :
  receiveBlock 1 (sendBlock_frame 1 [0x41; 0x42] Crc) 2 Normal
  = ([SocketWrite [NAK]], SizeMismatch).
Proof.
  apply (frame_of_other_mode_is_nak 1 [0x41; 0x42] Normal Crc).
  - discriminate.
  - repeat constructor; unfold is_byte; lia.
  - discriminate.
  - discriminate.
Defined.




End ReceiverSafety.
